(** * Chainlit frontend: ScrollContainer and MessageContext

    A shallow embedding of
      - [src/frontend/src/contexts/MessageContext.tsx] (the default context
        value), and
      - the [ScrollContainer] React component (scroll anchoring, spacer
        sizing, scroll-button visibility, scroll-end polling).

    The component is event driven and single threaded.  Every handler,
    effect and timer callback of the source is a function from [World] to
    [World]; a callback handed to [setTimeout], [requestAnimationFrame] or
    [addEventListener] is kept as data ([Callback]) in the corresponding
    queue of the world and interpreted by [run_callback] when it fires.

    Pixel quantities are integers ([Z]): [clientHeight], [scrollHeight],
    [offsetTop] and [offsetHeight] are integral in the DOM, and scroll
    offsets are taken at whole-pixel granularity.  A scroll offset written
    by the component is stored as the code asked for it.  What the browser
    makes of it is a separate step: [reflow] and [comes_to_rest] bring an
    offset into the scrollable range of the layout of the moment, and
    [browser_shows] supplies the offset and layout a callback finds when it
    runs. *)

From Stdlib Require Import ZArith String.
From stdpp Require Import gmap list pretty.

Open Scope Z_scope.

(* ===================================================================== *)
(** ** MessageContext.tsx *)
(* ===================================================================== *)

Module MessageContext.

Section Context.

(** The host application state the callbacks act on.  The declaration of
    [IMessageContext] ([types/messageContext]) is not part of the sources;
    a callback is taken as a function of its argument that transforms the
    host state, and an optional callback as an [option]. *)
Variable Host : Type.

Definition Handler := string -> Host -> Host.

Record IMessageContext := {
  highlightedMessage : option string;
  loading : bool;
  editable : bool;
  onElementRefClick : option Handler;
  onFeedbackUpdated : option Handler;
  showFeedbackButtons : bool;
  onError : Handler;
  uiName : string;
  cot : string;
  isStreaming : bool
}.

(** [const defaultMessageContext = { ... }], lines 5-16. *)
Definition defaultMessageContext : IMessageContext := {|
  highlightedMessage := None;
  loading := false;
  editable := false;
  onElementRefClick := None;
  onFeedbackUpdated := None;
  showFeedbackButtons := true;
  onError := fun _ h => h;
  uiName := "";
  cot := "hidden";
  isStreaming := false
|}.

(** The boolean flags of the context record, by name. *)
Definition flags (c : IMessageContext) : list (string * bool) :=
  [ ("loading"%string, loading c);
    ("editable"%string, editable c);
    ("showFeedbackButtons"%string, showFeedbackButtons c);
    ("isStreaming"%string, isStreaming c) ].

End Context.

Arguments highlightedMessage {Host} _.
Arguments loading {Host} _.
Arguments editable {Host} _.
Arguments onElementRefClick {Host} _.
Arguments onFeedbackUpdated {Host} _.
Arguments showFeedbackButtons {Host} _.
Arguments onError {Host} _.
Arguments uiName {Host} _.
Arguments cot {Host} _.
Arguments isStreaming {Host} _.
Arguments flags {Host} _.

End MessageContext.

(* ===================================================================== *)
(** ** ScrollContainer *)
(* ===================================================================== *)

Module ScrollContainer.

(** *** The DOM as the component sees it *)

Definition NodeId := nat.
Definition RefId := nat.

(** A rendered node below the scroll container: its [data-step-type]
    attribute and its layout box. *)
Record Node := {
  data_step_type : option string;
  offsetTop : Z;
  offsetHeight : Z
}.

(** The scrollable [div] behind [ref]. [smoothScroll] is the target of the
    smooth scroll in flight, if any. [descendants] lists the nodes below the
    element in document order. *)
Record Element := {
  scrollTop : Z;
  scrollHeight : Z;
  clientHeight : Z;
  smoothScroll : option Z;
  descendants : list NodeId
}.

(** The spacer [div] behind [spacerRef]; only its inline height is used. *)
Record Spacer := { style_height : string }.

(** A message of [useChatMessages()]; only its [type] is inspected. *)
Record IStep := { type : string }.

(** Closures handed to the browser, with the values they capture. *)
Inductive Callback :=
| MountCheck                                (* lines 123-129 *)
| ScrollEndCheck (prevScrollTop : Z)        (* lines 137-150 *)
| AfterScrollToPosition (isStreaming : bool) (* lines 184-188 *)
| HandleResize (isStreaming : bool).        (* lines 105-107 *)

(** What one render of the component closes over: the props, the context's
    streaming flag, the message list and the [useState] snapshot read by
    [handleScroll]. *)
Record Render := {
  autoScrollRef : option RefId;
  autoScrollUserMessage : option bool;
  isStreaming : bool;
  messages : list IStep;
  isScrolling : bool
}.

(** Everything that outlives a render: the three refs of the component, the
    document's nodes, the two [useState] cells, the boolean ref objects
    owned by the caller, and the browser's queues. *)
Record World := {
  ref_current : option Element;
  spacerRef_current : option Spacer;
  lastUserMessageRef_current : option NodeId;
  nodes : gmap NodeId Node;
  showScrollButton : bool;
  isScrolling_state : bool;
  refs : gmap RefId bool;
  timers : list (Callback * Z);
  frames : list Callback;
  resizeListeners : list Callback
}.

(** Field updates. *)
Definition set_ref_current (e : option Element) (w : World) : World :=
  {| ref_current := e;
     spacerRef_current := spacerRef_current w;
     lastUserMessageRef_current := lastUserMessageRef_current w;
     nodes := nodes w;
     showScrollButton := showScrollButton w;
     isScrolling_state := isScrolling_state w;
     refs := refs w;
     timers := timers w;
     frames := frames w;
     resizeListeners := resizeListeners w |}.

Definition set_spacerRef_current (s : option Spacer) (w : World) : World :=
  {| ref_current := ref_current w;
     spacerRef_current := s;
     lastUserMessageRef_current := lastUserMessageRef_current w;
     nodes := nodes w;
     showScrollButton := showScrollButton w;
     isScrolling_state := isScrolling_state w;
     refs := refs w;
     timers := timers w;
     frames := frames w;
     resizeListeners := resizeListeners w |}.

Definition set_lastUserMessageRef_current (n : option NodeId) (w : World)
  : World :=
  {| ref_current := ref_current w;
     spacerRef_current := spacerRef_current w;
     lastUserMessageRef_current := n;
     nodes := nodes w;
     showScrollButton := showScrollButton w;
     isScrolling_state := isScrolling_state w;
     refs := refs w;
     timers := timers w;
     frames := frames w;
     resizeListeners := resizeListeners w |}.

Definition setShowScrollButton (b : bool) (w : World) : World :=
  {| ref_current := ref_current w;
     spacerRef_current := spacerRef_current w;
     lastUserMessageRef_current := lastUserMessageRef_current w;
     nodes := nodes w;
     showScrollButton := b;
     isScrolling_state := isScrolling_state w;
     refs := refs w;
     timers := timers w;
     frames := frames w;
     resizeListeners := resizeListeners w |}.

Definition setIsScrolling (b : bool) (w : World) : World :=
  {| ref_current := ref_current w;
     spacerRef_current := spacerRef_current w;
     lastUserMessageRef_current := lastUserMessageRef_current w;
     nodes := nodes w;
     showScrollButton := showScrollButton w;
     isScrolling_state := b;
     refs := refs w;
     timers := timers w;
     frames := frames w;
     resizeListeners := resizeListeners w |}.

Definition set_refs (r : gmap RefId bool) (w : World) : World :=
  {| ref_current := ref_current w;
     spacerRef_current := spacerRef_current w;
     lastUserMessageRef_current := lastUserMessageRef_current w;
     nodes := nodes w;
     showScrollButton := showScrollButton w;
     isScrolling_state := isScrolling_state w;
     refs := r;
     timers := timers w;
     frames := frames w;
     resizeListeners := resizeListeners w |}.

Definition set_timers (t : list (Callback * Z)) (w : World) : World :=
  {| ref_current := ref_current w;
     spacerRef_current := spacerRef_current w;
     lastUserMessageRef_current := lastUserMessageRef_current w;
     nodes := nodes w;
     showScrollButton := showScrollButton w;
     isScrolling_state := isScrolling_state w;
     refs := refs w;
     timers := t;
     frames := frames w;
     resizeListeners := resizeListeners w |}.

Definition set_frames (f : list Callback) (w : World) : World :=
  {| ref_current := ref_current w;
     spacerRef_current := spacerRef_current w;
     lastUserMessageRef_current := lastUserMessageRef_current w;
     nodes := nodes w;
     showScrollButton := showScrollButton w;
     isScrolling_state := isScrolling_state w;
     refs := refs w;
     timers := timers w;
     frames := f;
     resizeListeners := resizeListeners w |}.

Definition set_resizeListeners (l : list Callback) (w : World) : World :=
  {| ref_current := ref_current w;
     spacerRef_current := spacerRef_current w;
     lastUserMessageRef_current := lastUserMessageRef_current w;
     nodes := nodes w;
     showScrollButton := showScrollButton w;
     isScrolling_state := isScrolling_state w;
     refs := refs w;
     timers := timers w;
     frames := frames w;
     resizeListeners := l |}.

(** *** Browser primitives used by the component *)

(** [el.scrollTop = v]: an instant scroll, which ends a smooth scroll in
    flight. *)
Definition assign_scrollTop (v : Z) (e : Element) : Element :=
  {| scrollTop := v;
     scrollHeight := scrollHeight e;
     clientHeight := clientHeight e;
     smoothScroll := None;
     descendants := descendants e |}.

(** [el.scrollTo({ top, behavior: 'smooth' })]: the scroll starts, the
    offset is not changed yet. *)
Definition scrollTo_smooth (top : Z) (e : Element) : Element :=
  {| scrollTop := scrollTop e;
     scrollHeight := scrollHeight e;
     clientHeight := clientHeight e;
     smoothScroll := Some top;
     descendants := descendants e |}.

(** The layout box of the node behind a reference; a node that is no longer
    in the document has no box and reads as zero. *)
Definition offsetTop_of (w : World) (n : NodeId) : Z :=
  default 0 (offsetTop <$> nodes w !! n).

Definition offsetHeight_of (w : World) (n : NodeId) : Z :=
  default 0 (offsetHeight <$> nodes w !! n).

Definition is_user_message (w : World) (n : NodeId) : bool :=
  match nodes w !! n with
  | Some nd =>
      match data_step_type nd with
      | Some t => String.eqb t "user_message"
      | None => false
      end
  | None => false
  end.

(** [el.querySelectorAll('[data-step-type="user_message"]')]. *)
Definition querySelectorAll_user_message (w : World) (e : Element)
  : list NodeId :=
  List.filter (is_user_message w) (descendants e).

Definition setTimeout (cb : Callback) (ms : Z) (w : World) : World :=
  set_timers (timers w ++ [(cb, ms)]) w.

Definition requestAnimationFrame (cb : Callback) (w : World) : World :=
  set_frames (frames w ++ [cb]) w.

#[global] Instance Callback_eq_dec : EqDecision Callback.
Proof. solve_decision. Defined.

(** [window.addEventListener('resize', cb)] and its inverse, which drops
    the registration of [cb] if there is one. *)
Definition addResizeListener (cb : Callback) (w : World) : World :=
  set_resizeListeners (resizeListeners w ++ [cb]) w.

Fixpoint remove_first (cb : Callback) (l : list Callback) : list Callback :=
  match l with
  | [] => []
  | c :: l' => if decide (c = cb) then l' else c :: remove_first cb l'
  end.

Definition removeResizeListener (cb : Callback) (w : World) : World :=
  set_resizeListeners (remove_first cb (resizeListeners w)) w.

(** The template literal [`${n}px`]. *)
Definition px (n : Z) : string := (pretty n +:+ "px")%string.

(** [spacerRef.current.style.height = h]. *)
Definition set_spacer_height (h : string) (w : World) : World :=
  match spacerRef_current w with
  | Some _ => set_spacerRef_current (Some {| style_height := h |}) w
  | None => w
  end.

(** *** The component *)

(** [scrollTop + clientHeight >= scrollHeight - 10], lines 127, 145, 194. *)
Definition atBottom (e : Element) : bool :=
  scrollHeight e - 10 <=? scrollTop e + clientHeight e.

(** [updateSpacerHeight], lines 40-64, for the [isStreaming] it was
    memoised with. *)
Definition updateSpacerHeight (isStreaming : bool) (w : World) : World :=
  match ref_current w, lastUserMessageRef_current w, spacerRef_current w with
  | Some e, Some m, Some _ =>
      if isStreaming then
        let containerHeight := clientHeight e in
        let lastMessageTop := offsetTop_of w m in
        let lastMessageHeight := offsetHeight_of w m in
        let newSpacerHeight :=
          Z.max 0 (containerHeight - (lastMessageTop + lastMessageHeight) + 20)
        in
        let w1 := set_spacer_height (px newSpacerHeight) w in
        set_ref_current (Some (assign_scrollTop (lastMessageTop - 20) e)) w1
      else set_spacer_height "0px" w
  | _, _, _ => w
  end.

(** [checkScrollEnd], lines 132-151: the part that runs at once. It takes
    the first sample and arms the 100ms timer; the timer's body is the
    [ScrollEndCheck] case of [run_callback]. *)
Definition checkScrollEnd (w : World) : World :=
  match ref_current w with
  | None => w
  | Some e =>
      let prevScrollTop := scrollTop e in
      setTimeout (ScrollEndCheck prevScrollTop) 100 w
  end.

(** [scrollToBottom], lines 153-168. *)
Definition scrollToBottom (r : Render) (w : World) : World :=
  match ref_current w with
  | None => w
  | Some e =>
      let w1 := setIsScrolling true w in
      let w2 :=
        set_ref_current (Some (scrollTo_smooth (scrollHeight e) e)) w1 in
      let w3 :=
        match autoScrollRef r with
        | Some a => set_refs (<[a := true]> (refs w2)) w2
        | None => w2
        end in
      let w4 := setShowScrollButton false w3 in
      checkScrollEnd w4
  end.

(** [scrollToPosition], lines 170-189. The animation-frame callback closes
    over the [updateSpacerHeight] of the same render. *)
Definition scrollToPosition (r : Render) (w : World) : World :=
  match ref_current w, lastUserMessageRef_current w with
  | Some e, Some m =>
      let w1 := setIsScrolling true w in
      let scrollPosition := offsetTop_of w1 m - 20 in
      let w2 :=
        set_ref_current (Some (scrollTo_smooth scrollPosition e)) w1 in
      requestAnimationFrame (AfterScrollToPosition (isStreaming r)) w2
  | _, _ => w
  end.

(** [handleScroll], lines 191-201; [isScrolling] is the snapshot of the
    render the handler belongs to. *)
Definition handleScroll (r : Render) (w : World) : World :=
  match ref_current w with
  | None => w
  | Some e =>
      if isScrolling r then w
      else
        let w1 :=
          match autoScrollRef r with
          | Some a => set_refs (<[a := atBottom e]> (refs w)) w
          | None => w
          end in
        setShowScrollButton (negb (atBottom e)) w1
  end.

(** [messages[messages.length - 1]?.type === 'user_message'], line 88. *)
Definition last_is_user_message (ms : list IStep) : bool :=
  match last ms with
  | Some m => String.eqb (type m) "user_message"
  | None => false
  end.

(** The effect on [messages, isStreaming, updateSpacerHeight],
    lines 67-99. [last userMessages] is [userMessages[length - 1]] and is
    [Some] exactly when [userMessages.length > 0]. *)
Definition messagesEffect (r : Render) (w : World) : World :=
  match ref_current w with
  | None => w
  | Some e =>
      if (length (messages r) =? 0)%nat
         && bool_decide (is_Some (spacerRef_current w))
      then set_spacer_height "0px" w
      else
        let userMessages := querySelectorAll_user_message w e in
        match last userMessages with
        | Some lastUserMessage =>
            let w1 :=
              set_lastUserMessageRef_current (Some lastUserMessage) w in
            let w2 :=
              if last_is_user_message (messages r) then scrollToPosition r w1
              else if negb (isStreaming r) then scrollToBottom r w1
              else w1 in
            updateSpacerHeight (isStreaming r) w2
        | None => w
        end
  end.

(** The effect on [autoScrollUserMessage, updateSpacerHeight],
    lines 102-117, and the cleanup it returns. *)
Definition resizeEffect (r : Render) (w : World) : World :=
  if negb (default false (autoScrollUserMessage r)) then w
  else
    let w1 := addResizeListener (HandleResize (isStreaming r)) w in
    updateSpacerHeight (isStreaming r) w1.

Definition resizeCleanup (r : Render) (w : World) : World :=
  if negb (default false (autoScrollUserMessage r)) then w
  else removeResizeListener (HandleResize (isStreaming r)) w.

(** The mount effect, lines 120-130. *)
Definition mountEffect (w : World) : World :=
  match ref_current w with
  | None => w
  | Some _ => setTimeout MountCheck 500 w
  end.

(** The bodies of the closures handed to the browser. *)
Definition run_callback (cb : Callback) (w : World) : World :=
  match cb with
  | MountCheck =>
      match ref_current w with
      | None => w
      | Some e => setShowScrollButton (negb (atBottom e)) w
      end
  | ScrollEndCheck prevScrollTop =>
      match ref_current w with
      | None => w
      | Some e =>
          let currentScrollTop := scrollTop e in
          if currentScrollTop =? prevScrollTop then
            let w1 := setIsScrolling false w in
            setShowScrollButton (negb (atBottom e)) w1
          else checkScrollEnd w
      end
  | AfterScrollToPosition isStreaming =>
      let w1 := updateSpacerHeight isStreaming w in
      let w2 := setShowScrollButton false w1 in
      checkScrollEnd w2
  | HandleResize isStreaming => updateSpacerHeight isStreaming w
  end.

(** *** The browser's side *)

(** The oldest pending timer fires. This is the timer due first when the
    pending timers were all armed with the same delay; [fire_first] below
    covers timers of different delays. *)
Definition fire_timer (w : World) : World :=
  match timers w with
  | [] => w
  | (cb, _) :: rest => run_callback cb (set_timers rest w)
  end.


(** A [resize] event is dispatched to the registered listeners. *)
Definition window_resize (w : World) : World :=
  foldl (fun w' cb => run_callback cb w') w (resizeListeners w).

(** The viewport moves to offset [v] (a step of the smooth scroll, or the
    user dragging); a smooth scroll in flight stays in flight. *)
Definition browser_scrolled (v : Z) (w : World) : World :=
  match ref_current w with
  | None => w
  | Some e =>
      set_ref_current
        (Some {| scrollTop := v;
                 scrollHeight := scrollHeight e;
                 clientHeight := clientHeight e;
                 smoothScroll := smoothScroll e;
                 descendants := descendants e |}) w
  end.

(** The smooth scroll in flight reaches its target and ends. The target is
    taken as reachable; [comes_to_rest] below brings it into the scrollable
    range. *)
Definition settle (w : World) : World :=
  match ref_current w with
  | Some e =>
      match smoothScroll e with
      | Some top => set_ref_current (Some (assign_scrollTop top e)) w
      | None => w
      end
  | None => w
  end.

(** One period of the scroll-end polling: the viewport is at offset [s]
    when the armed timer fires. *)
Definition period (s : Z) (w : World) : World :=
  fire_timer (browser_scrolled s w).

Definition polls (samples : list Z) (w : World) : World :=
  foldl (fun w' s => period s w') w samples.

(** *** Observations used in the statements *)

(** The target of the smooth scroll the container has been asked for. *)
Definition scroll_target (w : World) : option Z :=
  ref_current w ≫= smoothScroll.

(** The scroll offset of the container. *)
Definition scroll_position (w : World) : option Z :=
  scrollTop <$> ref_current w.

(** The inline height of the spacer. *)
Definition spacer_height (w : World) : option string :=
  style_height <$> spacerRef_current w.

(** Each sample of a run differs from the one before it, [prev] being the
    sample before the first. *)
Fixpoint moving (prev : Z) (samples : list Z) : Prop :=
  match samples with
  | [] => True
  | s :: rest => s <> prev /\ moving s rest
  end.

(** *** The component as a whole *)

(** The render that follows a state change: props, context and messages as
    before, with a fresh [useState] snapshot. *)
Definition rerender (r : Render) (w : World) : Render :=
  {| autoScrollRef := autoScrollRef r;
     autoScrollUserMessage := autoScrollUserMessage r;
     isStreaming := isStreaming r;
     messages := messages r;
     isScrolling := isScrolling_state w |}.

(** What React and the browser can call into: the three effects and the
    cleanup of the resize effect, [onScroll={handleScroll}] (line 208),
    [onClick={scrollToBottom}] (line 221), and the body of a callback that
    was handed to the browser. *)
Inductive Entry :=
| MessagesEffect (r : Render)
| ResizeEffect (r : Render)
| ResizeCleanup (r : Render)
| MountEffect
| OnScroll (r : Render)
| OnClick (r : Render)
| Run (cb : Callback).

Definition enter (en : Entry) (w : World) : World :=
  match en with
  | MessagesEffect r => messagesEffect r w
  | ResizeEffect r => resizeEffect r w
  | ResizeCleanup r => resizeCleanup r w
  | MountEffect => mountEffect w
  | OnScroll r => handleScroll r w
  | OnClick r => scrollToBottom r w
  | Run cb => run_callback cb w
  end.

Definition enter_all (ens : list Entry) (w : World) : World :=
  foldl (fun w' en => enter en w') w ens.

(** The spacer, if attached, has no inline height yet or a height of a
    non-negative number of pixels. *)
Definition spacer_nonnegative (w : World) : Prop :=
  match spacerRef_current w with
  | None => True
  | Some sp =>
      style_height sp = ""%string
      \/ exists h, 0 <= h /\ style_height sp = px h
  end.

(** [w'] has the timers of [w] and at most one more, which is a scroll-end
    check after 100ms or the mount check after 500ms. *)
Definition arms_at_most_one (w w' : World) : Prop :=
  timers w' = timers w
  \/ (exists p, timers w' = timers w ++ [(ScrollEndCheck p, 100)])
  \/ timers w' = timers w ++ [(MountCheck, 500)].

(** *** The browser's side, with layout and clock *)

(** The offsets a viewport of client height [ch] over content of height
    [sh] can show: from 0 to [sh - ch]. An offset outside is brought to the
    nearest end. *)
Definition clamp_offset (sh ch v : Z) : Z := Z.max 0 (Z.min v (sh - ch)).

(** The browser shows the container at offset [v] with scroll height [sh]
    and client height [ch]: a step of a scroll, a drag by the user, or new
    content. A smooth scroll in flight stays in flight. *)
Definition browser_shows (v sh ch : Z) (w : World) : World :=
  match ref_current w with
  | None => w
  | Some e =>
      set_ref_current
        (Some {| scrollTop := v;
                 scrollHeight := sh;
                 clientHeight := ch;
                 smoothScroll := smoothScroll e;
                 descendants := descendants e |}) w
  end.

(** The layout changes to [sh], [ch] (for instance after the spacer was
    resized); the offset is kept as far as the new layout allows. *)
Definition reflow (sh ch : Z) (w : World) : World :=
  match ref_current w with
  | None => w
  | Some e => browser_shows (clamp_offset sh ch (scrollTop e)) sh ch w
  end.

(** The viewport comes to rest under the layout [sh], [ch]: a smooth
    scroll in flight ends at its target, or at the end of the scrollable
    range nearest to it; without one the offset stays, within the range. *)
Definition comes_to_rest (sh ch : Z) (w : World) : World :=
  match ref_current w with
  | None => w
  | Some e =>
      set_ref_current
        (Some {| scrollTop :=
                   clamp_offset sh ch
                     (default (scrollTop e) (smoothScroll e));
                 scrollHeight := sh;
                 clientHeight := ch;
                 smoothScroll := None;
                 descendants := descendants e |}) w
  end.
















End ScrollContainer.

(* ===================================================================== *)
(** ** Sample renders and worlds *)
(* ===================================================================== *)

Module Samples.
Import ScrollContainer.

Definition bot_node : Node :=
  {| data_step_type := Some "assistant_message"%string;
     offsetTop := 0; offsetHeight := 300 |}.

Definition user_node : Node :=
  {| data_step_type := Some "user_message"%string;
     offsetTop := 300; offsetHeight := 40 |}.

Definition viewport (ds : list NodeId) : Element :=
  {| scrollTop := 0; scrollHeight := 900; clientHeight := 600;
     smoothScroll := None; descendants := ds |}.

(** A mounted container showing a bot message followed by a user message;
    the caller owns one boolean ref, number 7. *)
Definition chat : World :=
  {| ref_current := Some (viewport [0%nat; 1%nat]);
     spacerRef_current := Some {| style_height := "" |};
     lastUserMessageRef_current := Some 1%nat;
     nodes := <[0%nat := bot_node]> {[1%nat := user_node]};
     showScrollButton := true;
     isScrolling_state := true;
     refs := {[7%nat := false]};
     timers := [];
     frames := [];
     resizeListeners := [] |}.

(** A mounted container showing a bot message only. *)
Definition greeting : World :=
  {| ref_current := Some (viewport [0%nat]);
     spacerRef_current := Some {| style_height := "" |};
     lastUserMessageRef_current := None;
     nodes := {[0%nat := bot_node]};
     showScrollButton := false;
     isScrolling_state := false;
     refs := {[7%nat := false]};
     timers := [];
     frames := [];
     resizeListeners := [] |}.

Definition render (streaming : bool) (ms : list string) : Render :=
  {| autoScrollRef := Some 7%nat;
     autoScrollUserMessage := Some true;
     isStreaming := streaming;
     messages := (fun t => {| type := t |}) <$> ms;
     isScrolling := false |}.

(** The same container after unmount: both element refs are detached, the
    tracked node is gone from the document. *)
Definition unmounted : World :=
  {| ref_current := None;
     spacerRef_current := None;
     lastUserMessageRef_current := Some 1%nat;
     nodes := ∅;
     showScrollButton := true;
     isScrolling_state := true;
     refs := {[7%nat := false]};
     timers := [(ScrollEndCheck 120, 100)];
     frames := [];
     resizeListeners := [] |}.

(** A chat whose user message is followed by a reply. *)
Definition reply_node : Node :=
  {| data_step_type := Some "assistant_message"%string;
     offsetTop := 340; offsetHeight := 200 |}.

Definition chat_with_reply : World :=
  {| ref_current := Some (viewport [0%nat; 1%nat; 2%nat]);
     spacerRef_current := Some {| style_height := "" |};
     lastUserMessageRef_current := None;
     nodes :=
       <[0%nat := bot_node]>
         (<[1%nat := user_node]> {[2%nat := reply_node]});
     showScrollButton := false;
     isScrolling_state := false;
     refs := {[7%nat := false]};
     timers := [];
     frames := [];
     resizeListeners := [] |}.

(** A chat that starts with a user message 10 pixels below the top. *)
Definition first_node : Node :=
  {| data_step_type := Some "user_message"%string;
     offsetTop := 10; offsetHeight := 40 |}.

Definition first_message : World :=
  {| ref_current := Some (viewport [0%nat]);
     spacerRef_current := Some {| style_height := "" |};
     lastUserMessageRef_current := None;
     nodes := {[0%nat := first_node]};
     showScrollButton := false;
     isScrolling_state := false;
     refs := ∅;
     timers := [];
     frames := [];
     resizeListeners := [] |}.

(** The chat scrolled to offset 290, which is 10 pixels short of the last
    offset 300. *)
Definition near_bottom : World :=
  {| ref_current :=
       Some {| scrollTop := 290; scrollHeight := 900; clientHeight := 600;
               smoothScroll := None; descendants := [0%nat; 1%nat] |};
     spacerRef_current := Some {| style_height := "" |};
     lastUserMessageRef_current := Some 1%nat;
     nodes := <[0%nat := bot_node]> {[1%nat := user_node]};
     showScrollButton := true;
     isScrolling_state := false;
     refs := {[7%nat := false]};
     timers := [];
     frames := [];
     resizeListeners := [] |}.

End Samples.

(* ===================================================================== *)
(** ** Properties of MessageContext *)
(* ===================================================================== *)

Module MessageContextSpec.
Import MessageContext.

(** C5, as stated, fails: not every boolean flag of the default context is
    false, because [showFeedbackButtons] defaults to [true]. *)
Lemma default_flags_not_all_false :
  ~ Forall (fun f => f.2 = false) (flags (defaultMessageContext unit)).
Proof.
  intros H. rewrite Forall_forall in H.
  specialize (H ("showFeedbackButtons"%string, true)).
  cbn in H. discriminate H. cbn. set_solver.
Qed.

(** C5, amended: in the default context [loading], [editable] and
    [isStreaming] are false and [showFeedbackButtons] is true, the
    chain-of-thought mode is "hidden", both optional callbacks are absent
    and [onError] leaves the host state as it is. *)
Theorem default_context_values (Host : Type) :
  let c := defaultMessageContext Host in
  loading c = false /\ editable c = false /\ isStreaming c = false
  /\ showFeedbackButtons c = true
  /\ cot c = "hidden"%string
  /\ onElementRefClick c = None /\ onFeedbackUpdated c = None
  /\ (forall (err : string) (h : Host), onError c err h = h).
Proof. cbn. repeat split; reflexivity. Qed.

End MessageContextSpec.

(* ===================================================================== *)
(** ** Properties of ScrollContainer *)
(* ===================================================================== *)

Module ScrollContainerSpec.
Import ScrollContainer.

(** *** Helper lemmas *)

Lemma set_spacer_height_attached h s w :
  spacerRef_current w = Some s ->
  set_spacer_height h w
  = set_spacerRef_current (Some {| style_height := h |}) w.
Proof. intros H. unfold set_spacer_height. now rewrite H. Qed.

Lemma last_is_user_message_nonempty ms :
  last_is_user_message ms = true -> (length ms =? 0)%nat = false.
Proof. destruct ms; [discriminate | reflexivity]. Qed.

Lemma nonempty_length {A} (l : list A) :
  l <> [] -> (length l =? 0)%nat = false.
Proof. destruct l; [congruence | reflexivity]. Qed.

(** Neither spacer update touches the node store, the caller's refs or the
    queues. *)
Lemma updateSpacerHeight_frame b w :
  let w' := updateSpacerHeight b w in
  nodes w' = nodes w /\ refs w' = refs w /\ timers w' = timers w
  /\ frames w' = frames w /\ resizeListeners w' = resizeListeners w
  /\ showScrollButton w' = showScrollButton w
  /\ isScrolling_state w' = isScrolling_state w
  /\ lastUserMessageRef_current w' = lastUserMessageRef_current w.
Proof.
  unfold updateSpacerHeight, set_spacer_height.
  destruct (ref_current w), (lastUserMessageRef_current w) eqn:Hm,
    (spacerRef_current w), b; cbn; rewrite ?Hm; repeat split.
Qed.

(** *** C1 *)

(** C1: with the three refs attached, [updateSpacerHeight] sets the spacer
    height to max(0, containerHeight - (top + height) + 20) pixels while
    streaming and to exactly 0 pixels otherwise; the height written is
    never negative. *)
Theorem updateSpacerHeight_height (w : World) e m s :
  ref_current w = Some e ->
  lastUserMessageRef_current w = Some m ->
  spacerRef_current w = Some s ->
  let h :=
    Z.max 0 (clientHeight e - (offsetTop_of w m + offsetHeight_of w m) + 20) in
  spacer_height (updateSpacerHeight true w) = Some (px h)
  /\ spacer_height (updateSpacerHeight false w) = Some "0px"%string
  /\ px 0 = "0px"%string
  /\ 0 <= h.
Proof.
  intros He Hm Hs h. unfold updateSpacerHeight, spacer_height.
  rewrite He, Hm, Hs. cbn beta iota.
  rewrite !(set_spacer_height_attached _ s) by assumption.
  cbn. repeat split. subst h. lia.
Qed.

Lemma updateSpacerHeight_height_witness :
  spacer_height (updateSpacerHeight true Samples.chat)
  = Some "280px"%string.
Proof.
  exact (proj1 (updateSpacerHeight_height Samples.chat
                  (Samples.viewport [0%nat; 1%nat]) 1%nat
                  {| style_height := "" |} eq_refl eq_refl eq_refl)).
Defined.

(** *** C6 and C9: updates that do nothing to the scroll state *)

(** C6: on a mounted container (container and spacer refs attached), an
    update with an empty message list writes "0px" to the spacer height and
    does nothing else: the resulting world is the old one with that one
    field replaced, so the tracked user-message node, the scroll offset, the
    pending smooth scroll, both state cells, the caller's refs and all
    queues are as before. *)
Theorem empty_messages_reset_spacer r w e s :
  messages r = [] ->
  ref_current w = Some e ->
  spacerRef_current w = Some s ->
  messagesEffect r w
  = set_spacerRef_current (Some {| style_height := "0px" |}) w
  /\ spacer_height (messagesEffect r w) = Some "0px"%string
  /\ lastUserMessageRef_current (messagesEffect r w)
     = lastUserMessageRef_current w
  /\ ref_current (messagesEffect r w) = ref_current w
  /\ timers (messagesEffect r w) = timers w
  /\ frames (messagesEffect r w) = frames w.
Proof.
  intros Hm He Hs.
  assert (messagesEffect r w
          = set_spacerRef_current (Some {| style_height := "0px" |}) w) as ->.
  { unfold messagesEffect. rewrite He, Hm, Hs. cbn.
    now apply set_spacer_height_attached with s. }
  repeat split.
Qed.

Lemma empty_messages_reset_spacer_witness :
  spacer_height (messagesEffect (Samples.render true []) Samples.chat)
  = Some "0px"%string.
Proof.
  exact (proj1 (proj2
    (empty_messages_reset_spacer (Samples.render true []) Samples.chat
       (Samples.viewport [0%nat; 1%nat]) {| style_height := "" |}
       eq_refl eq_refl eq_refl))).
Defined.

Lemma no_marker_no_match w e :
  (forall n nd, n ∈ descendants e -> nodes w !! n = Some nd ->
                data_step_type nd <> Some "user_message"%string) ->
  querySelectorAll_user_message w e = [].
Proof.
  intros H. unfold querySelectorAll_user_message.
  induction (descendants e) as [|n ds IH]; [reflexivity|].
  cbn. assert (is_user_message w n = false) as ->.
  { unfold is_user_message.
    destruct (nodes w !! n) as [nd|] eqn:Hn; [|reflexivity].
    destruct (data_step_type nd) as [t|] eqn:Ht; [|reflexivity].
    apply String.eqb_neq. intros ->.
    apply (H n nd); [set_solver | assumption | assumption]. }
  apply IH. intros n' nd' Hin. apply H. set_solver.
Qed.

(** C9: when the message list is not empty and no node below the container
    carries [data-step-type="user_message"], the update changes nothing at
    all, whatever the streaming flag: no scroll is started and the spacer
    height stays as it was. *)
Theorem no_user_message_node_noop r w :
  messages r <> [] ->
  (forall e n nd,
      ref_current w = Some e -> n ∈ descendants e ->
      nodes w !! n = Some nd ->
      data_step_type nd <> Some "user_message"%string) ->
  messagesEffect r w = w.
Proof.
  intros Hm Hn. unfold messagesEffect.
  destruct (ref_current w) as [e|] eqn:He; [|reflexivity].
  rewrite (nonempty_length _ Hm). cbn.
  rewrite (no_marker_no_match w e); [reflexivity|].
  intros n nd. now apply Hn.
Qed.

Lemma no_user_message_node_noop_witness :
  messagesEffect (Samples.render false ["assistant_message"%string])
    Samples.greeting
  = Samples.greeting.
Proof.
  apply no_user_message_node_noop.
  - discriminate.
  - intros e n nd He Hin Hnd. cbn in He. injection He as <-. cbn in Hin.
    apply list_elem_of_singleton in Hin. subst n.
    vm_compute in Hnd. injection Hnd as <-. discriminate.
Defined.

(** *** C2 and C3: where an update scrolls to *)

Lemma marked_node_is_user_message w n nd :
  nodes w !! n = Some nd ->
  data_step_type nd = Some "user_message"%string ->
  is_user_message w n = true.
Proof. intros Hn Hd. unfold is_user_message. now rewrite Hn, Hd. Qed.

Lemma unmarked_node_is_no_user_message w x :
  (forall ndx, nodes w !! x = Some ndx ->
               data_step_type ndx <> Some "user_message"%string) ->
  is_user_message w x = false.
Proof.
  intros H. unfold is_user_message.
  destruct (nodes w !! x) as [ndx|]; [|reflexivity].
  destruct (data_step_type ndx) as [t|] eqn:Ht; [|reflexivity].
  apply String.eqb_neq. intros ->. now apply (H ndx).
Qed.

Lemma no_marked_node_after w (l2 : list NodeId) :
  (forall x ndx, x ∈ l2 -> nodes w !! x = Some ndx ->
                 data_step_type ndx <> Some "user_message"%string) ->
  List.filter (is_user_message w) l2 = [].
Proof.
  induction l2 as [|x l2 IH]; intros Hl2; [reflexivity|].
  cbn. rewrite (unmarked_node_is_no_user_message w x).
  - apply IH. intros y ndy Hy. apply Hl2. set_solver.
  - intros ndx. apply Hl2. set_solver.
Qed.

Lemma query_finds_last_marked w e l1 n nd l2 :
  descendants e = l1 ++ n :: l2 ->
  nodes w !! n = Some nd ->
  data_step_type nd = Some "user_message"%string ->
  (forall x ndx, x ∈ l2 -> nodes w !! x = Some ndx ->
                 data_step_type ndx <> Some "user_message"%string) ->
  last (querySelectorAll_user_message w e) = Some n.
Proof.
  intros Hd Hn Hm Hl2. unfold querySelectorAll_user_message.
  rewrite Hd, List.filter_app. cbn.
  rewrite (marked_node_is_user_message w n nd Hn Hm).
  rewrite (no_marked_node_after w l2 Hl2).
  apply last_snoc.
Qed.

Lemma clamp_offset_within sh ch v :
  0 <= v <= sh - ch -> clamp_offset sh ch v = v.
Proof. unfold clamp_offset. lia. Qed.

(** C2, as stated, fails: a chat that starts with a user message 10 pixels
    below the top asks for the offset 10 - 20 = -10, and the viewport comes
    to rest at 0. *)
Lemma user_message_near_top_rests_at_zero :
  ~ (forall r w e l1 n nd l2 ms m,
        ref_current w = Some e ->
        descendants e = l1 ++ n :: l2 ->
        nodes w !! n = Some nd ->
        data_step_type nd = Some "user_message"%string ->
        (forall x ndx, x ∈ l2 -> nodes w !! x = Some ndx ->
                       data_step_type ndx <> Some "user_message"%string) ->
        messages r = ms ++ [m] ->
        type m = "user_message"%string ->
        scroll_position
          (comes_to_rest (scrollHeight e) (clientHeight e)
             (messagesEffect r w))
        = Some (offsetTop nd - 20)).
Proof.
  intros H.
  assert (forall x ndx,
             x ∈ @nil NodeId ->
             nodes Samples.first_message !! x = Some ndx ->
             data_step_type ndx <> Some "user_message"%string) as Hl2.
  { intros x ndx Hx. apply elem_of_nil in Hx. destruct Hx. }
  pose proof (H (Samples.render false ["user_message"%string])
                Samples.first_message (Samples.viewport [0%nat])
                [] 0%nat Samples.first_node [] []
                {| type := "user_message" |}
                eq_refl eq_refl eq_refl eq_refl Hl2 eq_refl eq_refl) as Hc.
  vm_compute in Hc. discriminate Hc.
Qed.

(** C2, amended: when the last message of the list is a user message and a
    node under the container carries [data-step-type="user_message"], the
    update tracks the last such node and asks for the offset
    (top of that node) - 20: by a smooth [scrollTo], and while streaming
    also by assigning [scrollTop]. The viewport comes to rest at that
    offset brought into the scrollable range [0, scrollHeight -
    clientHeight]; it rests at (top of that node) - 20 itself whenever that
    offset lies within the range, whether the queued animation-frame
    callback has run or not. *)
Theorem user_message_scroll_rest r w e l1 n nd l2 ms m :
  ref_current w = Some e ->
  descendants e = l1 ++ n :: l2 ->
  nodes w !! n = Some nd ->
  data_step_type nd = Some "user_message"%string ->
  (forall x ndx, x ∈ l2 -> nodes w !! x = Some ndx ->
                 data_step_type ndx <> Some "user_message"%string) ->
  messages r = ms ++ [m] ->
  type m = "user_message"%string ->
  let w' := messagesEffect r w in
  let target := offsetTop nd - 20 in
  let after_frame := run_callback (AfterScrollToPosition (isStreaming r)) in
  lastUserMessageRef_current w' = Some n
  /\ isScrolling_state w' = true
  /\ last (frames w') = Some (AfterScrollToPosition (isStreaming r))
  /\ (isStreaming r = false -> scroll_target w' = Some target)
  /\ (isStreaming r = true -> is_Some (spacerRef_current w) ->
      scroll_position w' = Some target)
  /\ (forall sh0 ch0 sh ch,
        isStreaming r = false ->
        scroll_position (comes_to_rest sh ch (reflow sh0 ch0 w'))
        = Some (clamp_offset sh ch target))
  /\ (forall sh0 ch0 sh ch,
        isStreaming r = true -> is_Some (spacerRef_current w) ->
        scroll_position (comes_to_rest sh ch (reflow sh0 ch0 w'))
        = Some (clamp_offset sh ch (clamp_offset sh0 ch0 target)))
  /\ (forall sh0 ch0 sh ch,
        0 <= target <= sh0 - ch0 ->
        target <= sh - ch ->
        scroll_position (comes_to_rest sh ch (reflow sh0 ch0 w'))
        = Some target
        /\ scroll_position
             (comes_to_rest sh ch (reflow sh0 ch0 (after_frame w')))
           = Some target).
Proof.
  intros He Hd Hn Hmk Hl2 Hms Hty. cbn zeta.
  pose proof (query_finds_last_marked w e l1 n nd l2 Hd Hn Hmk Hl2) as Hq.
  assert (last_is_user_message (messages r) = true) as Hu.
  { unfold last_is_user_message. now rewrite Hms, last_snoc, Hty. }
  assert (offsetTop_of w n = offsetTop nd) as Hot.
  { unfold offsetTop_of. now rewrite Hn. }
  unfold messagesEffect.
  rewrite He, (last_is_user_message_nonempty _ Hu), Hq, Hu. cbn.
  unfold scrollToPosition. cbn. rewrite He. cbn.
  unfold scroll_position, scroll_target, comes_to_rest, reflow,
    browser_shows, requestAnimationFrame.
  change (offsetTop_of
            (setIsScrolling true
               (set_lastUserMessageRef_current (Some n) w)) n)
    with (offsetTop_of w n).
  rewrite Hot.
  destruct (isStreaming r), (spacerRef_current w) as [sp|] eqn:Hsp;
    unfold updateSpacerHeight, set_spacer_height, checkScrollEnd,
      offsetTop_of;
    cbn; rewrite ?Hsp; cbn; rewrite ?Hn; cbn; rewrite ?last_snoc;
    (split; [reflexivity|]); (split; [reflexivity|]);
    (split; [reflexivity|]); (split; [try discriminate; reflexivity|]);
    (split; [try discriminate; try reflexivity;
             try (intros _ [? ?]; discriminate)|]);
    (split; [try discriminate; intros; reflexivity|]);
    (split; [try discriminate; try (intros; reflexivity);
             try (intros ? ? ? ? _ [? ?]; discriminate)|]);
    intros sh0 ch0 sh ch H0 H1;
    rewrite ?(clamp_offset_within sh0 ch0) by lia;
    rewrite !(clamp_offset_within sh ch) by lia;
    split; reflexivity.
Qed.

Lemma user_message_scroll_rest_witness :
  let w' := messagesEffect
              (Samples.render false
                 ["assistant_message"; "user_message"]%string)
              Samples.chat_with_reply in
  lastUserMessageRef_current w' = Some 1%nat
  /\ scroll_position (comes_to_rest 900 600 (reflow 900 600 w'))
     = Some 280.
Proof.
  assert (forall x ndx,
             x ∈ [2%nat] -> nodes Samples.chat_with_reply !! x = Some ndx ->
             data_step_type ndx <> Some "user_message"%string) as Hl2.
  { intros x ndx Hx Hndx. apply list_elem_of_singleton in Hx. subst x.
    vm_compute in Hndx. injection Hndx as <-. discriminate. }
  assert (0 <= 300 - 20 <= 900 - 600) as H0 by lia.
  assert (300 - 20 <= 900 - 600) as H1 by lia.
  pose proof (user_message_scroll_rest
                (Samples.render false
                   ["assistant_message"; "user_message"]%string)
                Samples.chat_with_reply
                (Samples.viewport [0%nat; 1%nat; 2%nat])
                [0%nat] 1%nat Samples.user_node [2%nat]
                [{| type := "assistant_message" |}]
                {| type := "user_message" |}
                eq_refl eq_refl eq_refl eq_refl Hl2 eq_refl eq_refl) as H.
  cbn zeta in H.
  destruct H as (K1 & _ & _ & _ & _ & _ & _ & K2).
  split; [exact K1 | exact (proj1 (K2 900 600 900 600 H0 H1))].
Defined.

(** C3, as stated, fails: with streaming off and a bot message last, an
    update on a container without any user-message node starts no scroll. *)
Lemma scroll_to_bottom_without_user_node :
  ~ (forall r w e,
        ref_current w = Some e ->
        isStreaming r = false ->
        last_is_user_message (messages r) = false ->
        scroll_target (messagesEffect r w) = Some (scrollHeight e)).
Proof.
  intros H.
  specialize (H (Samples.render false ["assistant_message"%string])
                Samples.greeting (Samples.viewport [0%nat])
                eq_refl eq_refl eq_refl).
  vm_compute in H. discriminate H.
Qed.

(** C3, amended: when streaming is off, the list is not empty, its last
    message is not a user message and the query finds at least one
    user-message node, the update starts a smooth scroll whose target is the
    container's [scrollHeight], and the scroll settles there. *)
Theorem not_streaming_scrolls_to_bottom r w e n :
  ref_current w = Some e ->
  last (querySelectorAll_user_message w e) = Some n ->
  messages r <> [] ->
  isStreaming r = false ->
  last_is_user_message (messages r) = false ->
  let w' := messagesEffect r w in
  scroll_target w' = Some (scrollHeight e)
  /\ isScrolling_state w' = true
  /\ scroll_position (settle w') = Some (scrollHeight e).
Proof.
  intros He Hn Hm Hs Hu. cbn zeta. unfold messagesEffect.
  rewrite He, (nonempty_length _ Hm), Hn, Hu, Hs. cbn.
  unfold scrollToBottom. cbn. rewrite He. cbn.
  unfold scroll_position, scroll_target, settle.
  destruct (autoScrollRef r), (spacerRef_current w) as [s|] eqn:Hsp;
    unfold updateSpacerHeight, set_spacer_height, checkScrollEnd;
    cbn; rewrite ?Hsp; cbn; repeat split.
Qed.

Lemma not_streaming_scrolls_to_bottom_witness :
  scroll_target
    (messagesEffect
       (Samples.render false ["user_message"; "assistant_message"]%string)
       Samples.chat)
  = Some 900.
Proof.
  refine (proj1 (not_streaming_scrolls_to_bottom
                   (Samples.render false
                      ["user_message"; "assistant_message"]%string)
                   Samples.chat (Samples.viewport [0%nat; 1%nat]) 1%nat
                   eq_refl eq_refl _ eq_refl eq_refl)).
  discriminate.
Defined.

(** *** C4 and C7: button visibility and the caller's ref *)

Lemma atBottom_spec e :
  atBottom e = true <-> scrollTop e + clientHeight e >= scrollHeight e - 10.
Proof. unfold atBottom. rewrite Z.leb_le. lia. Qed.

Lemma hidden_iff_atBottom e :
  negb (atBottom e) = false
  <-> scrollTop e + clientHeight e >= scrollHeight e - 10.
Proof. rewrite negb_false_iff. apply atBottom_spec. Qed.

(** C4: each of the three places that recompute the button's visibility (a
    scroll event whose handler saw [isScrolling] false, the polling timer
    finding the offset unchanged, and the check queued at mount) leaves the
    button hidden if and only if
    scrollTop + clientHeight >= scrollHeight - 10. *)
Theorem button_hidden_iff_near_bottom w e :
  ref_current w = Some e ->
  let near_bottom := scrollTop e + clientHeight e >= scrollHeight e - 10 in
  (forall r, isScrolling r = false ->
             (showScrollButton (handleScroll r w) = false <-> near_bottom))
  /\ (showScrollButton (run_callback (ScrollEndCheck (scrollTop e)) w) = false
      <-> near_bottom)
  /\ (showScrollButton (run_callback MountCheck w) = false <-> near_bottom).
Proof.
  intros He. cbn zeta. repeat split.
  all: unfold handleScroll, run_callback; rewrite He, ?Z.eqb_refl.
  all: try match goal with H : isScrolling _ = false |- _ => rewrite H end.
  all: cbn; apply hidden_iff_atBottom.
Qed.

Lemma button_hidden_iff_near_bottom_witness :
  showScrollButton (run_callback MountCheck Samples.chat) = false
  <-> 0 + 600 >= 900 - 10.
Proof.
  exact (proj2 (proj2 (button_hidden_iff_near_bottom Samples.chat
                         (Samples.viewport [0%nat; 1%nat]) eq_refl))).
Defined.

(** C7: with the container attached, [scrollToBottom] writes [true] to the
    caller's ref in the same step that starts the scroll, whatever the
    offset; a scroll event whose handler saw [isScrolling] false writes
    [true] to it when scrollTop + clientHeight >= scrollHeight - 10 and
    [false] otherwise; without the prop neither touches any of the caller's
    refs. *)
Theorem autoScrollRef_writes r w e :
  ref_current w = Some e ->
  (forall a, autoScrollRef r = Some a ->
     refs (scrollToBottom r w) = <[a := true]> (refs w)
     /\ scroll_target (scrollToBottom r w) = Some (scrollHeight e)
     /\ (isScrolling r = false ->
         (scrollTop e + clientHeight e >= scrollHeight e - 10 ->
          refs (handleScroll r w) = <[a := true]> (refs w))
         /\ (scrollTop e + clientHeight e < scrollHeight e - 10 ->
             refs (handleScroll r w) = <[a := false]> (refs w))))
  /\ (autoScrollRef r = None ->
      refs (scrollToBottom r w) = refs w /\ refs (handleScroll r w) = refs w).
Proof.
  intros He. unfold scrollToBottom, handleScroll, scroll_target.
  rewrite He. cbn. split.
  - intros a Ha. rewrite Ha. cbn.
    split; [reflexivity|]. split; [reflexivity|].
    intros ->. split; intros Hb.
    + apply atBottom_spec in Hb. now rewrite Hb.
    + assert (atBottom e = false) as ->; [|reflexivity].
      unfold atBottom. apply Z.leb_gt. lia.
  - intros Ha. rewrite Ha. cbn. split; [reflexivity|].
    destruct (isScrolling r); reflexivity.
Qed.

Lemma autoScrollRef_writes_witness :
  refs (handleScroll (Samples.render false []) Samples.near_bottom) !! 7%nat
  = Some true
  /\ refs (handleScroll (Samples.render false []) Samples.chat) !! 7%nat
     = Some false
  /\ refs (scrollToBottom (Samples.render false []) Samples.chat) !! 7%nat
     = Some true.
Proof.
  assert (290 + 600 >= 900 - 10) as Hnear by lia.
  assert (0 + 600 < 900 - 10) as Hfar by lia.
  destruct (proj1 (autoScrollRef_writes (Samples.render false [])
                     Samples.near_bottom
                     {| scrollTop := 290; scrollHeight := 900;
                        clientHeight := 600; smoothScroll := None;
                        descendants := [0%nat; 1%nat] |}
                     eq_refl) 7%nat eq_refl) as (_ & _ & H1).
  destruct (proj1 (autoScrollRef_writes (Samples.render false [])
                     Samples.chat (Samples.viewport [0%nat; 1%nat])
                     eq_refl) 7%nat eq_refl) as (H2 & _ & H3).
  rewrite (proj1 (H1 eq_refl) Hnear), (proj2 (H3 eq_refl) Hfar), H2.
  repeat split.
Defined.

(** *** C10: recomputing the spacer while streaming moves the viewport *)

(** C10: while streaming, with the three refs attached, every spacer
    recomputation also sets the container's [scrollTop] to
    (top of the tracked user message) - 20: the direct call, the resize
    listener's call, and a resize event reaching the listener registered by
    the resize effect after the viewport had been moved elsewhere. *)
Theorem streaming_recompute_pins_scroll w e m s :
  ref_current w = Some e ->
  lastUserMessageRef_current w = Some m ->
  spacerRef_current w = Some s ->
  let pinned := Some (offsetTop_of w m - 20) in
  scroll_position (updateSpacerHeight true w) = pinned
  /\ scroll_position (run_callback (HandleResize true) w) = pinned
  /\ (forall r v,
        isStreaming r = true ->
        autoScrollUserMessage r = Some true ->
        resizeListeners w = [] ->
        scroll_position (resizeEffect r w) = pinned
        /\ scroll_position
             (window_resize (browser_scrolled v (resizeEffect r w)))
           = pinned).
Proof.
  intros He Hm Hs. cbn zeta.
  assert (forall w1 e1 s1,
             ref_current w1 = Some e1 ->
             lastUserMessageRef_current w1 = Some m ->
             spacerRef_current w1 = Some s1 ->
             nodes w1 = nodes w ->
             scroll_position (updateSpacerHeight true w1)
             = Some (offsetTop_of w m - 20)) as Hpin.
  { intros w1 e1 s1 He1 Hm1 Hs1 Hn.
    unfold updateSpacerHeight, scroll_position, offsetTop_of.
    rewrite He1, Hm1, Hs1, Hn. reflexivity. }
  split; [|split].
  - now apply Hpin with e s.
  - cbn. now apply Hpin with e s.
  - intros r v Hr Ha Hl. unfold resizeEffect. rewrite Ha, Hr. cbn.
    split.
    + now apply Hpin with e s.
    + unfold window_resize, browser_scrolled, updateSpacerHeight,
        addResizeListener, set_spacer_height.
      cbn. rewrite He, Hm, Hs, Hl. cbn.
      unfold updateSpacerHeight, set_spacer_height. cbn.
      rewrite Hm. reflexivity.
Qed.

Lemma streaming_recompute_pins_scroll_witness :
  scroll_position (updateSpacerHeight true Samples.chat) = Some 280.
Proof.
  exact (proj1 (streaming_recompute_pins_scroll Samples.chat
                  (Samples.viewport [0%nat; 1%nat]) 1%nat
                  {| style_height := "" |} eq_refl eq_refl eq_refl)).
Defined.

(** *** A polling chain running on its own *)

Lemma default_last_cons (p s : Z) (rest : list Z) :
  default p (last (s :: rest)) = default s (last rest).
Proof. rewrite last_cons. now destruct (last rest). Qed.

(** One period in which the viewport moved: the timer is armed again with
    the new sample and nothing else changes. *)
Lemma period_moved w e p s :
  ref_current w = Some e ->
  timers w = [(ScrollEndCheck p, 100)] ->
  s <> p ->
  let w' := period s w in
  timers w' = [(ScrollEndCheck s, 100)]
  /\ isScrolling_state w' = isScrolling_state w
  /\ showScrollButton w' = showScrollButton w
  /\ exists e', ref_current w' = Some e' /\ scrollTop e' = s
                /\ scrollHeight e' = scrollHeight e
                /\ clientHeight e' = clientHeight e.
Proof.
  intros He Ht Hne. cbn zeta.
  unfold period, browser_scrolled, fire_timer. rewrite He. cbn.
  rewrite Ht. cbn. apply Z.eqb_neq in Hne. rewrite Hne.
  unfold checkScrollEnd. cbn. repeat split. eexists. repeat split.
Qed.

(** One period in which the viewport stood still: the chain ends. *)
Lemma period_still w e p :
  ref_current w = Some e ->
  timers w = [(ScrollEndCheck p, 100)] ->
  let w' := period p w in
  timers w' = [] /\ isScrolling_state w' = false
  /\ showScrollButton w'
     = negb (scrollHeight e - 10 <=? p + clientHeight e).
Proof.
  intros He Ht. cbn zeta.
  unfold period, browser_scrolled, fire_timer. rewrite He. cbn.
  rewrite Ht. cbn. rewrite Z.eqb_refl. cbn. repeat split.
Qed.

Lemma polls_moving samples : forall w e p,
  ref_current w = Some e ->
  timers w = [(ScrollEndCheck p, 100)] ->
  moving p samples ->
  let s := default p (last samples) in
  let w' := polls samples w in
  timers w' = [(ScrollEndCheck s, 100)]
  /\ isScrolling_state w' = isScrolling_state w
  /\ showScrollButton w' = showScrollButton w
  /\ exists e', ref_current w' = Some e'
                /\ scrollHeight e' = scrollHeight e
                /\ clientHeight e' = clientHeight e.
Proof.
  induction samples as [|s0 rest IH]; intros w e p He Ht Hmv.
  - cbn. repeat split; [assumption|]. now exists e.
  - destruct Hmv as [Hne Hmv].
    destruct (period_moved w e p s0 He Ht Hne)
      as (Ht1 & Hi1 & Hb1 & e1 & He1 & _ & Hh1 & Hc1).
    specialize (IH (period s0 w) e1 s0 He1 Ht1 Hmv).
    cbn zeta in IH. destruct IH as (Ht2 & Hi2 & Hb2 & e2 & He2 & Hh2 & Hc2).
    cbn zeta. rewrite default_last_cons.
    change (polls (s0 :: rest) w) with (polls rest (period s0 w)).
    repeat split; [assumption | congruence | congruence |].
    exists e2. repeat split; congruence.
Qed.

(** *** C8: the scroll-end polling chain among other happenings *)












(** *** The mount effect *)

(** On an attached container the mount effect queues the visibility check
    with a delay of 500ms; when it is the only pending timer and fires, the
    button is hidden exactly when the viewport is near the bottom. *)
Lemma mountEffect_check w e :
  ref_current w = Some e ->
  timers w = [] ->
  timers (mountEffect w) = [(MountCheck, 500)]
  /\ showScrollButton (fire_timer (mountEffect w)) = negb (atBottom e).
Proof.
  intros He Ht. unfold mountEffect, fire_timer. rewrite He. cbn.
  rewrite Ht. cbn. now rewrite He.
Qed.

End ScrollContainerSpec.

(* ===================================================================== *)
(** ** Further properties of ScrollContainer *)
(* ===================================================================== *)

Module ScrollContainerMore.
Import ScrollContainer ScrollContainerSpec.

(** *** Detached refs *)

(** X1: with the container ref detached, every entry point of the
    component returns without any change, with three exceptions, which do
    not look at the container: the animation-frame callback of
    [scrollToPosition] still hides the button, and with
    [autoScrollUserMessage] true the resize effect still registers its
    listener and its cleanup still removes it. *)
Theorem detached_container_entries en w :
  ref_current w = None ->
  enter en w
  = match en with
    | Run (AfterScrollToPosition _) => setShowScrollButton false w
    | ResizeEffect r =>
        if default false (autoScrollUserMessage r)
        then addResizeListener (HandleResize (isStreaming r)) w
        else w
    | ResizeCleanup r =>
        if default false (autoScrollUserMessage r)
        then removeResizeListener (HandleResize (isStreaming r)) w
        else w
    | _ => w
    end.
Proof.
  intros He.
  assert (forall b w0, ref_current w0 = None -> updateSpacerHeight b w0 = w0)
    as Hu.
  { intros b w0 H0. unfold updateSpacerHeight. now rewrite H0. }
  destruct en as [r|r|r| |r|r|cb]; cbn.
  - unfold messagesEffect. now rewrite He.
  - unfold resizeEffect.
    destruct (default false (autoScrollUserMessage r)); cbn; [|reflexivity].
    now apply Hu.
  - unfold resizeCleanup.
    now destruct (default false (autoScrollUserMessage r)).
  - unfold mountEffect. now rewrite He.
  - unfold handleScroll. now rewrite He.
  - unfold scrollToBottom. now rewrite He.
  - destruct cb as [|p|b|b]; cbn; rewrite ?He; try reflexivity.
    + rewrite Hu by exact He. unfold checkScrollEnd. cbn. now rewrite He.
    + now apply Hu.
Qed.

Lemma detached_container_entries_witness :
  enter (MessagesEffect (Samples.render true ["user_message"%string]))
    Samples.unmounted
  = Samples.unmounted
  /\ resizeListeners
       (enter (ResizeEffect (Samples.render true [])) Samples.unmounted)
     = [HandleResize true].
Proof.
  rewrite (detached_container_entries
             (MessagesEffect (Samples.render true ["user_message"%string]))
             Samples.unmounted eq_refl).
  rewrite (detached_container_entries
             (ResizeEffect (Samples.render true []))
             Samples.unmounted eq_refl).
  split; reflexivity.
Defined.

(** X2: when a scroll-end check fires on a detached container, the timer is
    used up, no new one is armed and nothing else changes; [isScrolling] is
    not cleared. *)
Theorem scroll_end_check_after_unmount w p ms rest :
  ref_current w = None ->
  timers w = (ScrollEndCheck p, ms) :: rest ->
  fire_timer w = set_timers rest w
  /\ isScrolling_state (fire_timer w) = isScrolling_state w.
Proof.
  intros He Ht. unfold fire_timer. rewrite Ht. cbn. now rewrite He.
Qed.

Lemma scroll_end_check_after_unmount_witness :
  timers (fire_timer Samples.unmounted) = []
  /\ isScrolling_state (fire_timer Samples.unmounted) = true.
Proof.
  destruct (scroll_end_check_after_unmount Samples.unmounted 120 100 []
              eq_refl eq_refl) as [H1 H2].
  split; [now rewrite H1 | exact H2].
Defined.

(** X3: as long as no user message has been tracked, the resize effect only
    registers its listener, and a resize event reaching that listener
    changes nothing, streaming or not. *)
Theorem resize_before_first_user_message r w :
  lastUserMessageRef_current w = None ->
  autoScrollUserMessage r = Some true ->
  resizeListeners w = [] ->
  resizeEffect r w = addResizeListener (HandleResize (isStreaming r)) w
  /\ window_resize (resizeEffect r w) = resizeEffect r w.
Proof.
  intros Hm Ha Hl.
  assert (forall b w1, lastUserMessageRef_current w1 = None ->
                       updateSpacerHeight b w1 = w1) as Hu.
  { intros b w1 H1. unfold updateSpacerHeight. rewrite H1.
    now destruct (ref_current w1). }
  unfold resizeEffect. rewrite Ha. cbn. rewrite Hu by exact Hm.
  split; [reflexivity|].
  unfold window_resize, addResizeListener. cbn. rewrite Hl. cbn.
  apply Hu. exact Hm.
Qed.

Lemma resize_before_first_user_message_witness :
  window_resize (resizeEffect (Samples.render true []) Samples.greeting)
  = resizeEffect (Samples.render true []) Samples.greeting.
Proof.
  exact (proj2 (resize_before_first_user_message (Samples.render true [])
                  Samples.greeting eq_refl eq_refl eq_refl)).
Defined.

(** *** Message-list updates *)

(** X4: while streaming, an update that finds a user-message node (spacer
    attached, list not empty) sizes the spacer from the last such node and
    puts the viewport at (its top) - 20 at once. No timer is armed and the
    button and the caller's refs are not written. Only when the last message is a user message does the
    update also set [isScrolling] and request an animation frame. *)
Theorem streaming_update_pins_at_once r w e s n :
  ref_current w = Some e ->
  spacerRef_current w = Some s ->
  last (querySelectorAll_user_message w e) = Some n ->
  messages r <> [] ->
  isStreaming r = true ->
  let w' := messagesEffect r w in
  let h :=
    Z.max 0 (clientHeight e - (offsetTop_of w n + offsetHeight_of w n) + 20) in
  spacer_height w' = Some (px h)
  /\ scroll_position w' = Some (offsetTop_of w n - 20)
  /\ timers w' = timers w
  /\ showScrollButton w' = showScrollButton w
  /\ refs w' = refs w
  /\ (last_is_user_message (messages r) = false ->
      isScrolling_state w' = isScrolling_state w /\ frames w' = frames w)
  /\ (last_is_user_message (messages r) = true ->
      isScrolling_state w' = true
      /\ frames w' = frames w ++ [AfterScrollToPosition true]).
Proof.
  intros He Hs Hn Hm Hstr. cbn zeta. unfold messagesEffect.
  rewrite He, (nonempty_length _ Hm), Hn, Hstr. cbn.
  unfold spacer_height, scroll_position.
  destruct (last_is_user_message (messages r)).
  - unfold scrollToPosition. cbn. rewrite He, Hstr.
    unfold updateSpacerHeight, set_spacer_height, requestAnimationFrame,
      offsetTop_of, offsetHeight_of.
    cbn. rewrite Hs. cbn. repeat split; discriminate.
  - unfold updateSpacerHeight, set_spacer_height, offsetTop_of,
      offsetHeight_of.
    cbn. rewrite He, Hs. cbn. repeat split; discriminate.
Qed.

Lemma streaming_update_pins_at_once_witness :
  let w' := messagesEffect
              (Samples.render true
                 ["user_message"; "assistant_message"]%string)
              Samples.chat in
  spacer_height w' = Some "280px"%string /\ scroll_position w' = Some 280.
Proof.
  assert (messages (Samples.render true
                      ["user_message"; "assistant_message"]%string) <> [])
    as Hm by discriminate.
  pose proof (streaming_update_pins_at_once
                (Samples.render true
                   ["user_message"; "assistant_message"]%string)
                Samples.chat (Samples.viewport [0%nat; 1%nat])
                {| style_height := "" |} 1%nat
                eq_refl eq_refl eq_refl Hm eq_refl) as H.
  cbn zeta in H. destruct H as (H1 & H2 & _).
  split; [exact H1 | exact H2].
Defined.

(** X5: with streaming off, an update that finds a user-message node
    (spacer attached, list not empty) always starts a programmatic scroll
    and collapses the spacer to "0px": it sets [isScrolling], leaves the
    current offset as it is, and asks for a smooth scroll to
    (top of the last user-message node) - 20 when the last message is a
    user message and to [scrollHeight] otherwise. *)
Theorem idle_update_scrolls_and_collapses r w e s n :
  ref_current w = Some e ->
  spacerRef_current w = Some s ->
  last (querySelectorAll_user_message w e) = Some n ->
  messages r <> [] ->
  isStreaming r = false ->
  let w' := messagesEffect r w in
  spacer_height w' = Some "0px"%string
  /\ isScrolling_state w' = true
  /\ scroll_position w' = Some (scrollTop e)
  /\ scroll_target w'
     = Some (if last_is_user_message (messages r)
             then offsetTop_of w n - 20 else scrollHeight e).
Proof.
  intros He Hs Hn Hm Hstr. cbn zeta. unfold messagesEffect.
  rewrite He, (nonempty_length _ Hm), Hn, Hstr. cbn.
  unfold spacer_height, scroll_position, scroll_target.
  destruct (last_is_user_message (messages r)).
  - unfold scrollToPosition. cbn. rewrite He.
    unfold updateSpacerHeight, set_spacer_height, requestAnimationFrame,
      offsetTop_of.
    cbn. rewrite Hs. cbn. repeat split.
  - unfold scrollToBottom. cbn. rewrite He. cbn.
    destruct (autoScrollRef r);
      unfold updateSpacerHeight, set_spacer_height, checkScrollEnd;
      cbn; rewrite Hs; cbn; repeat split.
Qed.

Lemma idle_update_scrolls_and_collapses_witness :
  let w' := messagesEffect
              (Samples.render false
                 ["assistant_message"; "user_message"]%string)
              Samples.chat in
  spacer_height w' = Some "0px"%string /\ scroll_target w' = Some 280.
Proof.
  assert (messages (Samples.render false
                      ["assistant_message"; "user_message"]%string) <> [])
    as Hm by discriminate.
  pose proof (idle_update_scrolls_and_collapses
                (Samples.render false
                   ["assistant_message"; "user_message"]%string)
                Samples.chat (Samples.viewport [0%nat; 1%nat])
                {| style_height := "" |} 1%nat
                eq_refl eq_refl eq_refl Hm eq_refl) as H.
  cbn zeta in H. destruct H as (H1 & _ & _ & H2).
  split; [exact H1 | exact H2].
Defined.

Lemma last_filter_split (P : NodeId -> bool) l1 n l2 :
  P n = true ->
  (forall x, x ∈ l2 -> P x = false) ->
  last (List.filter P (l1 ++ n :: l2)) = Some n.
Proof.
  intros Hn Hl2. rewrite List.filter_app. cbn. rewrite Hn.
  assert (List.filter P l2 = []) as ->.
  { induction l2 as [|x l2 IH]; [reflexivity|].
    cbn. rewrite (Hl2 x) by set_solver. apply IH.
    intros y Hy. apply Hl2. set_solver. }
  apply last_snoc.
Qed.

(** X6: an update on a non-empty list tracks the last node in document
    order that carries [data-step-type="user_message"]: if [n] carries the
    marker and no node after it under the container does, then
    [lastUserMessageRef] holds [n] afterwards, whatever was tracked before
    and whatever the streaming flag and the message types are. *)
Theorem update_tracks_last_marked_node r w e l1 n l2 :
  ref_current w = Some e ->
  messages r <> [] ->
  descendants e = l1 ++ n :: l2 ->
  is_user_message w n = true ->
  (forall x, x ∈ l2 -> is_user_message w x = false) ->
  lastUserMessageRef_current (messagesEffect r w) = Some n.
Proof.
  intros He Hm Hd Hn Hl2.
  assert (last (querySelectorAll_user_message w e) = Some n) as Hq.
  { unfold querySelectorAll_user_message. rewrite Hd.
    now apply last_filter_split. }
  unfold messagesEffect. rewrite He, (nonempty_length _ Hm), Hq. cbn.
  match goal with
  | |- lastUserMessageRef_current (updateSpacerHeight ?b ?w2) = _ =>
      destruct (updateSpacerHeight_frame b w2)
        as (_ & _ & _ & _ & _ & _ & _ & ->)
  end.
  destruct (last_is_user_message (messages r)).
  - unfold scrollToPosition. cbn. now rewrite He.
  - destruct (isStreaming r); cbn; [reflexivity|].
    unfold scrollToBottom. cbn. rewrite He. cbn.
    unfold checkScrollEnd. now destruct (autoScrollRef r).
Qed.

Lemma update_tracks_last_marked_node_witness :
  lastUserMessageRef_current
    (messagesEffect (Samples.render true ["assistant_message"%string])
       Samples.chat)
  = Some 1%nat.
Proof.
  refine (update_tracks_last_marked_node
            (Samples.render true ["assistant_message"%string]) Samples.chat
            (Samples.viewport [0%nat; 1%nat]) [0%nat] 1%nat []
            eq_refl _ eq_refl eq_refl _).
  - discriminate.
  - intros x Hx. apply elem_of_nil in Hx. destruct Hx.
Defined.

(** *** Scroll events and programmatic scrolls *)

(** X7: a scroll event whose handler saw [isScrolling] true changes
    nothing. Otherwise, on an attached container, the handler writes the
    button and (if supplied) the caller's ref as complements of each other,
    and touches neither the viewport, nor [isScrolling], nor any queue. *)
Theorem handleScroll_effect r w e :
  ref_current w = Some e ->
  (isScrolling r = true -> handleScroll r w = w)
  /\ (isScrolling r = false ->
      let w' := handleScroll r w in
      (forall a, autoScrollRef r = Some a ->
                 refs w' !! a = Some (negb (showScrollButton w')))
      /\ ref_current w' = ref_current w
      /\ isScrolling_state w' = isScrolling_state w
      /\ timers w' = timers w
      /\ frames w' = frames w
      /\ spacerRef_current w' = spacerRef_current w).
Proof.
  intros He. unfold handleScroll. rewrite He. split; intros ->.
  - reflexivity.
  - cbn. split.
    + intros a ->. cbn. rewrite lookup_insert_eq.
      now rewrite negb_involutive.
    + destruct (autoScrollRef r); repeat split; exact He.
Qed.

Lemma handleScroll_effect_witness :
  refs (handleScroll (Samples.render false []) Samples.chat) !! 7%nat
  = Some (negb (showScrollButton
                  (handleScroll (Samples.render false []) Samples.chat))).
Proof.
  exact (proj1 (proj2 (handleScroll_effect (Samples.render false [])
                         Samples.chat (Samples.viewport [0%nat; 1%nat])
                         eq_refl) eq_refl) 7%nat eq_refl).
Defined.

Lemma run_callback_refs cb w : refs (run_callback cb w) = refs w.
Proof.
  destruct cb; cbn; unfold checkScrollEnd.
  - now destruct (ref_current w).
  - destruct (ref_current w); [|reflexivity].
    now destruct (_ =? _).
  - destruct (updateSpacerHeight_frame isStreaming0 w)
      as (_ & Hr & _). cbn in Hr.
    destruct (ref_current _); cbn; exact Hr.
  - now destruct (updateSpacerHeight_frame isStreaming0 w) as (_ & Hr & _).
Qed.

Lemma polls_refs samples : forall w, refs (polls samples w) = refs w.
Proof.
  induction samples as [|s rest IH]; intros w; [reflexivity|].
  change (polls (s :: rest) w) with (polls rest (period s w)).
  rewrite IH. unfold period, fire_timer.
  assert (refs (browser_scrolled s w) = refs w) as Hb.
  { unfold browser_scrolled. now destruct (ref_current w). }
  destruct (timers (browser_scrolled s w)) as [|[cb ms] ts];
    [exact Hb|].
  now rewrite run_callback_refs.
Qed.

(** X8: after [scrollToBottom] on an attached container with no other
    timer pending, and for as long as the polled offset keeps changing, the
    button stays hidden, the caller's ref stays true and [isScrolling]
    stays true, so the scroll handler of the re-rendered component ignores
    scroll events. *)
Theorem scroll_events_ignored_while_scrolling r w e (samples : list Z) :
  ref_current w = Some e ->
  timers w = [] ->
  moving (scrollTop e) samples ->
  let w' := polls samples (scrollToBottom r w) in
  showScrollButton w' = false
  /\ isScrolling_state w' = true
  /\ (forall a, autoScrollRef r = Some a -> refs w' !! a = Some true)
  /\ handleScroll (rerender r w') w' = w'.
Proof.
  intros He Ht Hmv. cbn zeta.
  assert (exists e0, ref_current (scrollToBottom r w) = Some e0
                     /\ scrollTop e0 = scrollTop e) as (e0 & He0 & Hst).
  { unfold scrollToBottom, checkScrollEnd. rewrite He. cbn.
    eexists. split; [destruct (autoScrollRef r); reflexivity|reflexivity]. }
  assert (timers (scrollToBottom r w) = [(ScrollEndCheck (scrollTop e), 100)]
          /\ isScrolling_state (scrollToBottom r w) = true
          /\ showScrollButton (scrollToBottom r w) = false) as (Ht0 & Hi0 & Hb0).
  { unfold scrollToBottom, checkScrollEnd. rewrite He. cbn.
    destruct (autoScrollRef r); cbn; rewrite Ht; repeat split. }
  destruct (polls_moving samples (scrollToBottom r w) e0 (scrollTop e)
              He0 Ht0 Hmv) as (_ & Hi1 & Hb1 & e1 & He1 & _).
  cbn zeta in *. rewrite Hi1, Hb1, Hi0, Hb0. repeat split.
  - intros a Ha. rewrite polls_refs.
    unfold scrollToBottom, checkScrollEnd. rewrite He, Ha. cbn.
    apply lookup_insert_eq.
  - unfold handleScroll, rerender. rewrite He1. cbn. now rewrite Hi1, Hi0.
Qed.

Lemma scroll_events_ignored_while_scrolling_witness :
  let w' := polls [40; 120] (scrollToBottom (Samples.render false [])
                               Samples.chat) in
  handleScroll (rerender (Samples.render false []) w') w' = w'.
Proof.
  assert (moving 0 [40; 120]) as Hmv by (cbn; lia).
  pose proof (scroll_events_ignored_while_scrolling
                (Samples.render false []) Samples.chat
                (Samples.viewport [0%nat; 1%nat]) [40; 120]
                eq_refl eq_refl Hmv) as H.
  cbn zeta in H. exact (proj2 (proj2 (proj2 H))).
Defined.

(** X9: [isScrolling] does not count chains. When [scrollToBottom] runs
    twice before any timer fires, two scroll-end checks are pending; if the
    offset has not moved when the first one fires, [isScrolling] is cleared
    although the second check is still pending. *)
Theorem overlapping_chains r w e :
  ref_current w = Some e ->
  timers w = [] ->
  let w2 := scrollToBottom r (scrollToBottom r w) in
  timers w2 = [(ScrollEndCheck (scrollTop e), 100);
               (ScrollEndCheck (scrollTop e), 100)]
  /\ isScrolling_state (fire_timer w2) = false
  /\ timers (fire_timer w2) = [(ScrollEndCheck (scrollTop e), 100)].
Proof.
  intros He Ht. cbn zeta.
  unfold scrollToBottom, checkScrollEnd, fire_timer. rewrite He. cbn.
  destruct (autoScrollRef r); cbn; rewrite Ht; cbn;
    rewrite Z.eqb_refl; cbn; repeat split.
Qed.

Lemma overlapping_chains_witness :
  let w2 := scrollToBottom (Samples.render false [])
              (scrollToBottom (Samples.render false []) Samples.chat) in
  isScrolling_state (fire_timer w2) = false
  /\ timers (fire_timer w2) = [(ScrollEndCheck 0, 100)].
Proof.
  pose proof (overlapping_chains (Samples.render false []) Samples.chat
                (Samples.viewport [0%nat; 1%nat]) eq_refl eq_refl) as H.
  cbn zeta in H. exact (proj2 H).
Defined.

Lemma updateSpacerHeight_attached b w e :
  ref_current w = Some e ->
  exists e', ref_current (updateSpacerHeight b w) = Some e'.
Proof.
  intros He. unfold updateSpacerHeight, set_spacer_height. rewrite He.
  destruct (lastUserMessageRef_current w), (spacerRef_current w), b;
    cbn; eauto.
Qed.

(** X10: [scrollToPosition] on its own (container attached, a node
    tracked) sets [isScrolling] and requests one animation frame, but arms
    no timer and writes neither the button nor the caller's refs. When that
    frame runs, the button is hidden and exactly one scroll-end check is
    armed with a delay of 100ms. *)
Theorem scrollToPosition_defers_polling r w e m :
  ref_current w = Some e ->
  lastUserMessageRef_current w = Some m ->
  let w1 := scrollToPosition r w in
  let w2 := run_callback (AfterScrollToPosition (isStreaming r)) w1 in
  isScrolling_state w1 = true
  /\ frames w1 = frames w ++ [AfterScrollToPosition (isStreaming r)]
  /\ timers w1 = timers w
  /\ showScrollButton w1 = showScrollButton w
  /\ refs w1 = refs w
  /\ showScrollButton w2 = false
  /\ exists p, timers w2 = timers w ++ [(ScrollEndCheck p, 100)].
Proof.
  intros He Hm. cbn zeta.
  set (w1 := scrollToPosition r w).
  assert (isScrolling_state w1 = true
          /\ frames w1 = frames w ++ [AfterScrollToPosition (isStreaming r)]
          /\ timers w1 = timers w
          /\ showScrollButton w1 = showScrollButton w
          /\ refs w1 = refs w
          /\ exists e1, ref_current w1 = Some e1)
    as (H1 & H2 & H3 & H4 & H5 & e1 & He1).
  { subst w1. unfold scrollToPosition. rewrite He, Hm. cbn.
    repeat split. eexists. reflexivity. }
  repeat split; try assumption.
  - cbn. unfold checkScrollEnd.
    now destruct (ref_current (setShowScrollButton _ _)).
  - destruct (updateSpacerHeight_attached (isStreaming r) w1 e1 He1)
      as [e2 He2].
    destruct (updateSpacerHeight_frame (isStreaming r) w1)
      as (_ & _ & Htm & _).
    cbn in Htm. cbn. unfold checkScrollEnd. cbn. rewrite He2. cbn.
    rewrite Htm, H3. eexists. reflexivity.
Qed.

Lemma scrollToPosition_defers_polling_witness :
  timers (scrollToPosition (Samples.render true []) Samples.chat) = [].
Proof.
  pose proof (scrollToPosition_defers_polling (Samples.render true [])
                Samples.chat (Samples.viewport [0%nat; 1%nat]) 1%nat
                eq_refl eq_refl) as H.
  cbn zeta in H. exact (proj1 (proj2 (proj2 H))).
Defined.

(** *** Invariants over every entry point *)

Lemma checkScrollEnd_frame w :
  spacerRef_current (checkScrollEnd w) = spacerRef_current w
  /\ frames (checkScrollEnd w) = frames w
  /\ arms_at_most_one w (checkScrollEnd w).
Proof.
  unfold checkScrollEnd, arms_at_most_one.
  destruct (ref_current w); cbn; repeat split; eauto.
Qed.

Lemma scrollToBottom_frame r w :
  spacerRef_current (scrollToBottom r w) = spacerRef_current w
  /\ frames (scrollToBottom r w) = frames w
  /\ arms_at_most_one w (scrollToBottom r w).
Proof.
  unfold scrollToBottom, checkScrollEnd, arms_at_most_one.
  destruct (ref_current w); [|repeat split; eauto].
  cbn. destruct (autoScrollRef r); cbn; repeat split; eauto.
Qed.

Lemma scrollToPosition_frame r w :
  spacerRef_current (scrollToPosition r w) = spacerRef_current w
  /\ timers (scrollToPosition r w) = timers w
  /\ (frames (scrollToPosition r w) = frames w
      \/ frames (scrollToPosition r w)
         = frames w ++ [AfterScrollToPosition (isStreaming r)]).
Proof.
  unfold scrollToPosition.
  destruct (ref_current w), (lastUserMessageRef_current w);
    cbn; repeat split; eauto.
Qed.

Lemma updateSpacerHeight_spacer b w :
  spacer_nonnegative w -> spacer_nonnegative (updateSpacerHeight b w).
Proof.
  unfold spacer_nonnegative, updateSpacerHeight, set_spacer_height.
  destruct (ref_current w), (lastUserMessageRef_current w),
    (spacerRef_current w) eqn:Hs, b; cbn; rewrite ?Hs; try tauto;
    intros _; right.
  - eexists. split; [|reflexivity]. lia.
  - exists 0. split; [lia | reflexivity].
Qed.

Lemma spacer_nonnegative_eq w w' :
  spacerRef_current w' = spacerRef_current w ->
  spacer_nonnegative w -> spacer_nonnegative w'.
Proof. unfold spacer_nonnegative. now intros ->. Qed.

Lemma arms_at_most_one_eq w w1 w' :
  timers w' = timers w1 -> arms_at_most_one w w1 -> arms_at_most_one w w'.
Proof. unfold arms_at_most_one. now intros ->. Qed.

Lemma arms_at_most_one_refl w : arms_at_most_one w w.
Proof. now left. Qed.

Lemma messagesEffect_frame r w :
  (spacer_nonnegative w -> spacer_nonnegative (messagesEffect r w))
  /\ arms_at_most_one w (messagesEffect r w)
  /\ (frames (messagesEffect r w) = frames w
      \/ frames (messagesEffect r w)
         = frames w ++ [AfterScrollToPosition (isStreaming r)]).
Proof.
  unfold messagesEffect.
  destruct (ref_current w) as [e|];
    [|split; [tauto | split; [apply arms_at_most_one_refl | now left]]].
  destruct (_ && _).
  { unfold set_spacer_height, spacer_nonnegative, arms_at_most_one.
    destruct (spacerRef_current w) eqn:Hs; cbn; rewrite ?Hs;
      repeat split; eauto.
    intros _. right. exists 0. split; [lia | reflexivity]. }
  destruct (last _) as [n|];
    [|split; [tauto | split; [apply arms_at_most_one_refl | now left]]].
  cbn zeta.
  set (w1 := set_lastUserMessageRef_current (Some n) w).
  match goal with
  | |- context [updateSpacerHeight _ ?w2] => set (w2' := w2)
  end.
  destruct (updateSpacerHeight_frame (isStreaming r) w2')
    as (_ & _ & Ht & Hf & _).
  cbn zeta in Ht, Hf.
  assert (spacerRef_current w2' = spacerRef_current w
          /\ arms_at_most_one w w2'
          /\ (frames w2' = frames w
              \/ frames w2'
                 = frames w ++ [AfterScrollToPosition (isStreaming r)]))
    as (Hs2 & Ht2 & Hf2).
  { subst w2'. destruct (last_is_user_message (messages r)).
    - destruct (scrollToPosition_frame r w1) as (H1 & H2 & H3).
      repeat split; [exact H1 | left; exact H2 | exact H3].
    - destruct (negb (isStreaming r)).
      + destruct (scrollToBottom_frame r w1) as (H1 & H2 & H3).
        repeat split; [exact H1 | exact H3 | left; exact H2].
      + repeat split; left; reflexivity. }
  repeat split.
  - intros Hw. apply updateSpacerHeight_spacer.
    now apply spacer_nonnegative_eq with w.
  - now apply arms_at_most_one_eq with w2'.
  - now rewrite Hf.
Qed.

Lemma run_callback_frame cb w :
  (spacer_nonnegative w -> spacer_nonnegative (run_callback cb w))
  /\ arms_at_most_one w (run_callback cb w)
  /\ frames (run_callback cb w) = frames w.
Proof.
  destruct cb as [|p|b|b]; cbn.
  - destruct (ref_current w); repeat split;
      try (left; reflexivity); intros H; exact H.
  - destruct (ref_current w);
      [|repeat split; try (left; reflexivity); intros H; exact H].
    destruct (_ =? _).
    + repeat split; try (left; reflexivity); intros H; exact H.
    + destruct (checkScrollEnd_frame w) as (H1 & H2 & H3).
      repeat split; [|exact H3|exact H2].
      now apply spacer_nonnegative_eq.
  - set (w2 := setShowScrollButton false (updateSpacerHeight b w)).
    destruct (checkScrollEnd_frame w2) as (H1 & H2 & H3).
    destruct (updateSpacerHeight_frame b w) as (_ & _ & Ht & Hf & _).
    cbn zeta in Ht, Hf.
    repeat split.
    + intros Hw. apply spacer_nonnegative_eq with w2; [exact H1|].
      now apply (updateSpacerHeight_spacer b).
    + unfold arms_at_most_one in *. subst w2. cbn in H3.
      now rewrite Ht in H3.
    + rewrite H2. exact Hf.
  - destruct (updateSpacerHeight_frame b w) as (_ & _ & Ht & Hf & _).
    cbn zeta in Ht, Hf.
    repeat split; [apply updateSpacerHeight_spacer | | exact Hf].
    left. exact Ht.
Qed.

(** X11: no entry point of the component ever cancels or reorders a pending
    timer or animation-frame request. Each call leaves the timers as they
    were or appends exactly one: a scroll-end check after 100ms or the mount
    check after 500ms. Only the message effect requests an animation frame,
    and at most one per run. *)
Theorem entry_queue_discipline en w :
  arms_at_most_one w (enter en w)
  /\ (frames (enter en w) = frames w
      \/ exists r, en = MessagesEffect r
                   /\ frames (enter en w)
                      = frames w ++ [AfterScrollToPosition (isStreaming r)]).
Proof.
  destruct en as [r|r|r| |r|r|cb]; cbn.
  - destruct (messagesEffect_frame r w) as (_ & Ht & [Hf|Hf]);
      split; eauto.
  - unfold resizeEffect. destruct (negb _);
      [split; left; reflexivity|].
    match goal with
    | |- context [updateSpacerHeight ?b ?w0] =>
        destruct (updateSpacerHeight_frame b w0) as (_ & _ & Ht & Hf & _)
    end.
    cbn in Ht, Hf. split; [left; exact Ht | left; exact Hf].
  - unfold resizeCleanup. destruct (negb _); split; left; reflexivity.
  - unfold mountEffect, arms_at_most_one.
    destruct (ref_current w); cbn; split; auto.
  - unfold handleScroll, arms_at_most_one.
    destruct (ref_current w); [|auto].
    destruct (isScrolling r); [auto|].
    destruct (autoScrollRef r); cbn; auto.
  - destruct (scrollToBottom_frame r w) as (_ & Hf & Ht). auto.
  - destruct (run_callback_frame cb w) as (_ & Ht & Hf). auto.
Qed.

(** X12: the spacer height is never negative, whatever happens. If the
    spacer has no inline height or a non-negative one, then after any
    sequence of effects, handlers and callbacks it still has; this holds
    for arbitrary layouts and scroll offsets at each call. *)
Theorem spacer_never_negative (ens : list Entry) : forall w,
  spacer_nonnegative w -> spacer_nonnegative (enter_all ens w).
Proof.
  induction ens as [|en ens IH]; intros w Hw; [exact Hw|].
  change (enter_all (en :: ens) w) with (enter_all ens (enter en w)).
  apply IH. destruct en as [r|r|r| |r|r|cb]; cbn.
  - now apply messagesEffect_frame.
  - unfold resizeEffect. destruct (negb _); [exact Hw|].
    apply updateSpacerHeight_spacer.
    now apply spacer_nonnegative_eq with w.
  - unfold resizeCleanup. destruct (negb _); [exact Hw|].
    now apply spacer_nonnegative_eq with w.
  - apply spacer_nonnegative_eq with w; [|exact Hw].
    unfold mountEffect. now destruct (ref_current w).
  - apply spacer_nonnegative_eq with w; [|exact Hw].
    unfold handleScroll. destruct (ref_current w); [|reflexivity].
    destruct (isScrolling r); [reflexivity|].
    now destruct (autoScrollRef r).
  - apply spacer_nonnegative_eq with w; [|exact Hw].
    apply scrollToBottom_frame.
  - now apply run_callback_frame.
Qed.

Lemma spacer_never_negative_witness :
  spacer_nonnegative
    (enter_all
       [ MessagesEffect
           (Samples.render true ["assistant_message"; "user_message"]%string);
         Run (AfterScrollToPosition true);
         OnScroll (Samples.render true []);
         MessagesEffect (Samples.render false []) ]
       Samples.chat).
Proof.
  apply spacer_never_negative. cbn. now left.
Defined.

(** *** What the entry points write *)

Lemma scrollToBottom_writes r w :
  lastUserMessageRef_current (scrollToBottom r w)
  = lastUserMessageRef_current w
  /\ (isScrolling_state (scrollToBottom r w) = isScrolling_state w
      \/ isScrolling_state (scrollToBottom r w) = true)
  /\ (forall k, autoScrollRef r <> Some k ->
                refs (scrollToBottom r w) !! k = refs w !! k).
Proof.
  unfold scrollToBottom, checkScrollEnd.
  destruct (ref_current w); [|repeat split; auto].
  cbn. destruct (autoScrollRef r) as [a|]; cbn; repeat split; auto.
  intros k Hk. apply lookup_insert_ne. congruence.
Qed.

Lemma scrollToPosition_writes r w :
  lastUserMessageRef_current (scrollToPosition r w)
  = lastUserMessageRef_current w
  /\ (isScrolling_state (scrollToPosition r w) = isScrolling_state w
      \/ isScrolling_state (scrollToPosition r w) = true)
  /\ refs (scrollToPosition r w) = refs w.
Proof.
  unfold scrollToPosition.
  destruct (ref_current w), (lastUserMessageRef_current w) eqn:Hm;
    cbn; rewrite ?Hm; repeat split; auto.
Qed.

Lemma handleScroll_writes r w :
  lastUserMessageRef_current (handleScroll r w)
  = lastUserMessageRef_current w
  /\ isScrolling_state (handleScroll r w) = isScrolling_state w
  /\ (forall k, autoScrollRef r <> Some k ->
                refs (handleScroll r w) !! k = refs w !! k).
Proof.
  unfold handleScroll.
  destruct (ref_current w); [|repeat split; auto].
  destruct (isScrolling r); [repeat split; auto|].
  destruct (autoScrollRef r) as [a|]; cbn; repeat split; auto.
  intros k Hk. apply lookup_insert_ne. congruence.
Qed.

Lemma messagesEffect_writes r w :
  (is_Some (lastUserMessageRef_current w) ->
   is_Some (lastUserMessageRef_current (messagesEffect r w)))
  /\ (isScrolling_state (messagesEffect r w) = isScrolling_state w
      \/ isScrolling_state (messagesEffect r w) = true)
  /\ (forall k, autoScrollRef r <> Some k ->
                refs (messagesEffect r w) !! k = refs w !! k).
Proof.
  unfold messagesEffect.
  destruct (ref_current w) as [e|]; [|repeat split; auto].
  destruct (_ && _).
  { unfold set_spacer_height.
    destruct (spacerRef_current w); cbn; repeat split; auto. }
  destruct (last _) as [n|]; [|repeat split; auto].
  cbn zeta.
  set (w1 := set_lastUserMessageRef_current (Some n) w).
  match goal with
  | |- context [updateSpacerHeight _ ?w2] => set (w2' := w2)
  end.
  destruct (updateSpacerHeight_frame (isStreaming r) w2')
    as (_ & -> & _ & _ & _ & _ & -> & ->).
  assert (lastUserMessageRef_current w2' = Some n
          /\ (isScrolling_state w2' = isScrolling_state w
              \/ isScrolling_state w2' = true)
          /\ (forall k, autoScrollRef r <> Some k ->
                        refs w2' !! k = refs w !! k)) as (H1 & H2 & H3).
  { subst w2'. destruct (last_is_user_message (messages r)).
    - destruct (scrollToPosition_writes r w1) as (-> & Hi & ->).
      repeat split; auto.
    - destruct (negb (isStreaming r)).
      + destruct (scrollToBottom_writes r w1) as (-> & Hi & Hr).
        repeat split; auto.
      + repeat split; auto. }
  rewrite H1. repeat split; eauto.
Qed.

Lemma run_callback_tracked cb w :
  lastUserMessageRef_current (run_callback cb w)
  = lastUserMessageRef_current w.
Proof.
  destruct cb as [|p|b|b]; cbn; unfold checkScrollEnd.
  - now destruct (ref_current w).
  - destruct (ref_current w); [|reflexivity]. now destruct (_ =? _).
  - destruct (updateSpacerHeight_frame b w)
      as (_ & _ & _ & _ & _ & _ & _ & Hm). cbn zeta in Hm.
    destruct (ref_current (setShowScrollButton _ _)); exact Hm.
  - now destruct (updateSpacerHeight_frame b w)
      as (_ & _ & _ & _ & _ & _ & _ & Hm).
Qed.

(** X13: once a user-message node is tracked, no entry point ever resets
    [lastUserMessageRef] to null. In particular an update with an empty
    message list leaves the old node tracked. *)
Theorem tracked_node_never_cleared (ens : list Entry) : forall w,
  is_Some (lastUserMessageRef_current w) ->
  is_Some (lastUserMessageRef_current (enter_all ens w)).
Proof.
  induction ens as [|en ens IH]; intros w Hw; [exact Hw|].
  change (enter_all (en :: ens) w) with (enter_all ens (enter en w)).
  apply IH. destruct en as [r|r|r| |r|r|cb]; cbn.
  - now apply messagesEffect_writes.
  - unfold resizeEffect. destruct (negb _); [exact Hw|].
    match goal with
    | |- context [updateSpacerHeight ?b ?w0] =>
        destruct (updateSpacerHeight_frame b w0)
          as (_ & _ & _ & _ & _ & _ & _ & ->)
    end.
    exact Hw.
  - unfold resizeCleanup. now destruct (negb _).
  - unfold mountEffect. now destruct (ref_current w).
  - now destruct (handleScroll_writes r w) as (-> & _).
  - now destruct (scrollToBottom_writes r w) as (-> & _).
  - now rewrite run_callback_tracked.
Qed.

Lemma tracked_node_never_cleared_witness :
  is_Some (lastUserMessageRef_current
             (enter_all [MessagesEffect (Samples.render true []);
                         OnClick (Samples.render true [])]
                Samples.chat)).
Proof.
  apply tracked_node_never_cleared. cbn. eauto.
Defined.

(** X14: [isScrolling] is written in two ways only. It becomes true only
    in the message effect or in a click on the button, and it becomes false
    only in a scroll-end check that finds the container attached at the
    offset sampled before. *)
Theorem isScrolling_writes en w :
  isScrolling_state (enter en w) = isScrolling_state w
  \/ (isScrolling_state (enter en w) = true
      /\ exists r, en = MessagesEffect r \/ en = OnClick r)
  \/ (isScrolling_state (enter en w) = false
      /\ exists p e, en = Run (ScrollEndCheck p)
                     /\ ref_current w = Some e /\ scrollTop e = p).
Proof.
  destruct en as [r|r|r| |r|r|cb]; cbn.
  - destruct (messagesEffect_writes r w) as (_ & [H|H] & _);
      [left; exact H | right; left; split; [exact H | eauto]].
  - left. unfold resizeEffect. destruct (negb _); [reflexivity|].
    match goal with
    | |- context [updateSpacerHeight ?b ?w0] =>
        now destruct (updateSpacerHeight_frame b w0)
          as (_ & _ & _ & _ & _ & _ & -> & _)
    end.
  - left. unfold resizeCleanup. now destruct (negb _).
  - left. unfold mountEffect. now destruct (ref_current w).
  - left. apply handleScroll_writes.
  - destruct (scrollToBottom_writes r w) as (_ & [H|H] & _);
      [left; exact H | right; left; split; [exact H | eauto]].
  - destruct cb as [|p|b|b]; cbn; unfold checkScrollEnd.
    + left. now destruct (ref_current w).
    + destruct (ref_current w) as [e|] eqn:He; [|now left].
      destruct (scrollTop e =? p) eqn:Hp.
      * right. right. split; [reflexivity|].
        exists p, e. apply Z.eqb_eq in Hp. auto.
      * left. reflexivity.
    + left. destruct (updateSpacerHeight_frame b w)
        as (_ & _ & _ & _ & _ & _ & Hi & _). cbn zeta in Hi.
      destruct (ref_current (setShowScrollButton _ _)); exact Hi.
    + left. now destruct (updateSpacerHeight_frame b w)
        as (_ & _ & _ & _ & _ & _ & Hi & _).
Qed.

(** X15: the component writes no boolean ref of the caller other than the
    one passed as [autoScrollRef]: an entry point leaves every other ref as
    it was, and timer, frame and resize callbacks write none at all. *)
Theorem only_supplied_ref_written en w (k : RefId) :
  (forall r, en = MessagesEffect r \/ en = OnScroll r \/ en = OnClick r ->
             autoScrollRef r <> Some k) ->
  refs (enter en w) !! k = refs w !! k.
Proof.
  intros Hk. destruct en as [r|r|r| |r|r|cb]; cbn.
  - apply messagesEffect_writes. apply Hk. auto.
  - unfold resizeEffect. destruct (negb _); [reflexivity|].
    match goal with
    | |- context [updateSpacerHeight ?b ?w0] =>
        now destruct (updateSpacerHeight_frame b w0) as (_ & -> & _)
    end.
  - unfold resizeCleanup. now destruct (negb _).
  - unfold mountEffect. now destruct (ref_current w).
  - apply handleScroll_writes. apply Hk. auto.
  - apply scrollToBottom_writes. apply Hk. auto.
  - now rewrite run_callback_refs.
Qed.

Lemma only_supplied_ref_written_witness :
  refs (enter (OnClick (Samples.render false [])) Samples.chat) !! 3%nat
  = refs Samples.chat !! 3%nat.
Proof.
  apply only_supplied_ref_written.
  intros r [H|[H|H]]; [discriminate H | discriminate H |].
  injection H as <-. discriminate.
Defined.

(** *** The resize listener and the mount check *)

Lemma remove_first_snoc cb l :
  cb ∉ l -> remove_first cb (l ++ [cb]) = l.
Proof.
  induction l as [|c l IH]; intros Hn; cbn.
  - now rewrite decide_True.
  - rewrite decide_False by set_solver. f_equal. apply IH. set_solver.
Qed.

(** X16: the resize effect and its cleanup are inverse on the listener
    list: when this render's listener is not registered yet, running the
    effect and then its cleanup restores the list. With
    [autoScrollUserMessage] absent or false neither of them does anything;
    with it true the effect registers exactly one listener, at the end. *)
Theorem resize_listener_round_trip r w :
  HandleResize (isStreaming r) ∉ resizeListeners w ->
  resizeListeners (resizeCleanup r (resizeEffect r w)) = resizeListeners w
  /\ (default false (autoScrollUserMessage r) = false ->
      resizeEffect r w = w /\ resizeCleanup r w = w)
  /\ (default false (autoScrollUserMessage r) = true ->
      resizeListeners (resizeEffect r w)
      = resizeListeners w ++ [HandleResize (isStreaming r)]).
Proof.
  intros Hn. unfold resizeCleanup, resizeEffect.
  destruct (default false (autoScrollUserMessage r)); cbn.
  - match goal with
    | |- context [updateSpacerHeight ?b ?w0] =>
        destruct (updateSpacerHeight_frame b w0)
          as (_ & _ & _ & _ & Hl & _)
    end.
    cbn zeta in Hl. cbn in Hl. rewrite Hl.
    split; [now apply remove_first_snoc|].
    split; [discriminate | reflexivity].
  - split; [reflexivity|]. split; [now split | discriminate].
Qed.

Lemma resize_listener_round_trip_witness :
  resizeListeners
    (resizeCleanup (Samples.render true [])
       (resizeEffect (Samples.render true []) Samples.chat))
  = [].
Proof.
  refine (proj1 (resize_listener_round_trip (Samples.render true [])
                   Samples.chat _)).
  cbn. apply not_elem_of_nil.
Defined.

(** X17: on an attached container the mount effect arms one check after
    500ms. When it fires as the only pending timer, it sets the button from
    the offsets of that moment and writes nothing else: [isScrolling], the
    caller's refs, the viewport and the spacer stay as they were. *)
Theorem mount_check_only_sets_button w e :
  ref_current w = Some e ->
  timers w = [] ->
  let w' := fire_timer (mountEffect w) in
  timers (mountEffect w) = [(MountCheck, 500)]
  /\ showScrollButton w' = negb (atBottom e)
  /\ isScrolling_state w' = isScrolling_state w
  /\ refs w' = refs w
  /\ ref_current w' = ref_current w
  /\ spacerRef_current w' = spacerRef_current w
  /\ timers w' = [].
Proof.
  intros He Ht. cbn zeta. unfold mountEffect, fire_timer. rewrite He. cbn.
  rewrite Ht. cbn. rewrite He. cbn. repeat split. exact He.
Qed.

Lemma mount_check_only_sets_button_witness :
  showScrollButton (fire_timer (mountEffect Samples.chat)) = true.
Proof.
  pose proof (mount_check_only_sets_button Samples.chat
                (Samples.viewport [0%nat; 1%nat]) eq_refl eq_refl) as H.
  cbn zeta in H. exact (proj1 (proj2 H)).
Defined.

(** *** Whole runs *)

Lemma period_moved_frame w e p s :
  ref_current w = Some e ->
  timers w = [(ScrollEndCheck p, 100)] ->
  s <> p ->
  let w' := period s w in
  spacerRef_current w' = spacerRef_current w
  /\ lastUserMessageRef_current w' = lastUserMessageRef_current w
  /\ refs w' = refs w
  /\ frames w' = frames w.
Proof.
  intros He Ht Hne. cbn zeta.
  unfold period, browser_scrolled, fire_timer. rewrite He. cbn.
  rewrite Ht. cbn. apply Z.eqb_neq in Hne. rewrite Hne.
  unfold checkScrollEnd. cbn. repeat split.
Qed.

Lemma period_still_frame w e p :
  ref_current w = Some e ->
  timers w = [(ScrollEndCheck p, 100)] ->
  let w' := period p w in
  spacerRef_current w' = spacerRef_current w
  /\ lastUserMessageRef_current w' = lastUserMessageRef_current w
  /\ refs w' = refs w
  /\ frames w' = frames w
  /\ scroll_position w' = Some p.
Proof.
  intros He Ht. cbn zeta.
  unfold period, browser_scrolled, fire_timer, scroll_position.
  rewrite He. cbn. rewrite Ht. cbn. rewrite Z.eqb_refl. cbn. repeat split.
Qed.

Lemma polls_moving_frame samples : forall w e p,
  ref_current w = Some e ->
  timers w = [(ScrollEndCheck p, 100)] ->
  moving p samples ->
  let w' := polls samples w in
  spacerRef_current w' = spacerRef_current w
  /\ lastUserMessageRef_current w' = lastUserMessageRef_current w
  /\ refs w' = refs w
  /\ frames w' = frames w.
Proof.
  induction samples as [|s0 rest IH]; intros w e p He Ht Hmv.
  - cbn. repeat split.
  - destruct Hmv as [Hne Hmv].
    destruct (period_moved w e p s0 He Ht Hne)
      as (Ht1 & _ & _ & e1 & He1 & _).
    destruct (period_moved_frame w e p s0 He Ht Hne)
      as (Hs1 & Hm1 & Hr1 & Hf1).
    specialize (IH (period s0 w) e1 s0 He1 Ht1 Hmv).
    cbn zeta in *. destruct IH as (Hs2 & Hm2 & Hr2 & Hf2).
    change (polls (s0 :: rest) w) with (polls rest (period s0 w)).
    repeat split; congruence.
Qed.



(** X19: the scroll-end check recomputes the button but not the caller's
    ref. After [scrollToBottom] with the ref supplied, if the offset comes
    to rest short of the 10-pixel threshold, the run ends with the button
    shown while the caller's ref still holds true. *)
Theorem scroll_to_bottom_stopping_short r w e a (samples : list Z) :
  ref_current w = Some e ->
  timers w = [] ->
  autoScrollRef r = Some a ->
  moving (scrollTop e) samples ->
  let s := default (scrollTop e) (last samples) in
  s + clientHeight e < scrollHeight e - 10 ->
  let w' := period s (polls samples (scrollToBottom r w)) in
  isScrolling_state w' = false
  /\ timers w' = []
  /\ showScrollButton w' = true
  /\ refs w' !! a = Some true.
Proof.
  intros He Ht Ha Hmv. cbn zeta. intros Hshort.
  set (w1 := scrollToBottom r w).
  assert (exists e1, ref_current w1 = Some e1
                     /\ scrollHeight e1 = scrollHeight e
                     /\ clientHeight e1 = clientHeight e)
    as (e1 & He1 & Hh1 & Hc1).
  { subst w1. unfold scrollToBottom, checkScrollEnd. rewrite He, Ha. cbn.
    eexists. repeat split. }
  assert (timers w1 = [(ScrollEndCheck (scrollTop e), 100)]
          /\ refs w1 !! a = Some true) as (Ht1 & Hr1).
  { subst w1. unfold scrollToBottom, checkScrollEnd. rewrite He, Ha. cbn.
    rewrite Ht. split; [reflexivity | apply lookup_insert_eq]. }
  destruct (polls_moving samples w1 e1 (scrollTop e) He1 Ht1 Hmv)
    as (Ht2 & _ & _ & e2 & He2 & Hh2 & Hc2).
  destruct (polls_moving_frame samples w1 e1 (scrollTop e) He1 Ht1 Hmv)
    as (_ & _ & Hr2 & _).
  cbn zeta in *.
  destruct (period_still _ e2 _ He2 Ht2) as (Ht3 & Hi3 & Hb3).
  destruct (period_still_frame _ e2 _ He2 Ht2) as (_ & _ & Hr3 & _).
  cbn zeta in *. repeat split; try assumption.
  - rewrite Hb3, Hh2, Hc2, Hh1, Hc1. apply negb_true_iff.
    apply Z.leb_gt. lia.
  - rewrite Hr3, Hr2. exact Hr1.
Qed.

Lemma scroll_to_bottom_stopping_short_witness :
  let w' := period 100
              (polls [40; 100]
                 (scrollToBottom (Samples.render false []) Samples.chat)) in
  showScrollButton w' = true /\ refs w' !! 7%nat = Some true.
Proof.
  assert (moving 0 [40; 100]) as Hmv by (cbn; lia).
  assert (100 + 600 < 900 - 10) as Hs by lia.
  pose proof (scroll_to_bottom_stopping_short (Samples.render false [])
                Samples.chat (Samples.viewport [0%nat; 1%nat]) 7%nat
                [40; 100] eq_refl eq_refl eq_refl Hmv Hs) as H.
  cbn zeta in H. destruct H as (_ & _ & H1 & H2).
  split; [exact H1 | exact H2].
Defined.

End ScrollContainerMore.
